(** * imgbeddings: the attention-weighted reducer and the batch orchestrator

    A shallow embedding of [src/imgbeddings/imgbeddings.py].

    - Tensors are nested lists, outermost axis first (what [tensor.tolist()]
      shows).  A torch tensor is rectangular; the shape predicates below say
      so when a statement needs it.  An axis of size zero hides the sizes of
      the axes inside it in this representation; the encoder never produces
      one, and the statements that depend on sizes ask for non-empty axes.
    - The element type is a parameter ([Scalar]): the tensor code is written
      once and read at two instances, the exact rationals [Qc] (the arithmetic
      the algorithm is designed in, rounding left out) and IEEE-754 binary32
      ([spec_float] at precision 24, the elements torch really stores).
    - Python exceptions are values of [error]; a computation that may raise
      has type [result X].
    - A reduction adds its terms from left to right, starting from zero;
      torch leaves the order open, and no statement below depends on it
      beyond what rounding would change.
    - The encoder, the processor and [square_pad] are imported by the file,
      not defined in it; they are section variables.  The progress bar and
      the log line are left out.
    - The in-place write of line 94 is studied on a second embedding of the
      same lines, over a heap of tensor objects. *)

From Stdlib Require Import String ZArith QArith Qcanon Lia Bool SpecFloat List.
Import ListNotations.

#[local] Close Scope Qc_scope.
#[local] Close Scope Q_scope.
#[local] Open Scope nat_scope.

(** ** Exceptions *)

Inductive error : Type :=
| IndexError
| RuntimeError
| ValueError
| AttributeError.

Inductive result (X : Type) : Type :=
| Ok (x : X)
| Raise (e : error).

Arguments Ok {X} x.
Arguments Raise {X} e.

Definition bind {X Y : Type} (c : result X) (k : X -> result Y) : result Y :=
  match c with
  | Ok x => k x
  | Raise e => Raise e
  end.

Notation "x <- c ;; k" := (bind c (fun x => k))
  (at level 61, c at next level, right associativity).

(** A list comprehension whose body may raise: elements are evaluated from
    left to right and the first exception ends the evaluation. *)
Fixpoint mapM {X Y : Type} (f : X -> result Y) (xs : list X) : result (list Y) :=
  match xs with
  | [] => Ok []
  | x :: rest =>
      y <- f x ;;
      ys <- mapM f rest ;;
      Ok (y :: ys)
  end.

Definition is_ok {X : Type} (c : result X) : bool :=
  match c with Ok _ => true | Raise _ => false end.

(** ** Python sequences *)

(** [range(start, stop)]. *)
Definition range (start stop : Z) : list Z :=
  map (fun i => (start + Z.of_nat i)%Z) (seq 0 (Z.to_nat (stop - start))).

(** [range(start, stop, step)]; a zero step is a [ValueError]. *)
Definition range_step (start stop step : Z) : result (list Z) :=
  if (step =? 0)%Z then Raise ValueError
  else
    let count :=
      if (0 <? step)%Z
      then Z.to_nat ((stop - start + step - 1) / step)
      else Z.to_nat ((start - stop - step - 1) / (- step)) in
    Ok (map (fun i => (start + Z.of_nat i * step)%Z) (seq 0 count)).

(** [xs[i]] on a tuple or list, with Python's negative indices. *)
Definition getitem {X : Type} (xs : list X) (i : Z) : result X :=
  let len := Z.of_nat (length xs) in
  let j := if (i <? 0)%Z then (i + len)%Z else i in
  if ((j <? 0) || (len <=? j))%Z then Raise IndexError
  else match nth_error xs (Z.to_nat j) with
       | Some x => Ok x
       | None => Raise IndexError
       end.

(** [xs[lo:hi]]: out-of-range bounds are clamped, never an error. *)
Definition slice_bound (len i : Z) : Z :=
  if (i <? 0)%Z then Z.max 0 (i + len) else Z.min i len.

Definition slice {X : Type} (xs : list X) (lo hi : Z) : list X :=
  let len := Z.of_nat (length xs) in
  let l := slice_bound len lo in
  let h := slice_bound len hi in
  firstn (Z.to_nat (h - l)) (skipn (Z.to_nat l) xs).

(** ** Scalars *)

Class Scalar (A : Type) : Type := {
  zero : A;
  add : A -> A -> A;
  mul : A -> A -> A;
  div : A -> A -> A;
  of_nat : nat -> A
}.

(** Exact rational arithmetic.  [Qcdiv x 0] is [0] in [Qc]; statements read at
    this instance keep away from a zero divisor. *)
#[export] Instance Scalar_Qc : Scalar Qc := {
  zero := Q2Qc 0;
  add := Qcplus;
  mul := Qcmult;
  div := Qcdiv;
  of_nat := fun n => Q2Qc (inject_Z (Z.of_nat n))
}.

(** IEEE-754 binary32, torch's default [float32]. *)
Definition float32 : Type := spec_float.
Definition prec32 : Z := 24.
Definition emax32 : Z := 128.

#[export] Instance Scalar_float32 : Scalar float32 := {
  zero := S754_zero false;
  add := SFadd prec32 emax32;
  mul := SFmul prec32 emax32;
  div := SFdiv prec32 emax32;
  of_nat := fun n => binary_normalize prec32 emax32 (Z.of_nat n) 0 false
}.

Definition is_nan (x : float32) : bool :=
  match x with S754_nan => true | _ => false end.

Definition is_zero (x : float32) : bool :=
  match x with S754_zero _ => true | _ => false end.

(** A zero or a finite number: neither an infinity nor NaN. *)
Definition is_finite (x : float32) : bool :=
  match x with S754_zero _ | S754_finite _ _ _ => true | _ => false end.

(** ** Tensors *)

(** Tensors of one to five axes. *)
Abbreviation tensor1 A := (list A).
Abbreviation tensor2 A := (list (tensor1 A)).
Abbreviation tensor3 A := (list (tensor2 A)).
Abbreviation tensor4 A := (list (tensor3 A)).
Abbreviation tensor5 A := (list (tensor4 A)).

Section Tensors.

Context {A : Type} `{Scalar A}.

(** [t.shape]: sizes read along the first element of each axis. *)
Definition shape1 (t : tensor1 A) : list nat := [length t].
Definition shape2 (t : tensor2 A) : list nat := length t :: shape1 (hd [] t).
Definition shape3 (t : tensor3 A) : list nat := length t :: shape2 (hd [] t).
Definition shape4 (t : tensor4 A) : list nat := length t :: shape3 (hd [] t).

(** Rectangularity: every slice along each axis has the announced sizes. *)
Definition has_shape1 (n : nat) (t : tensor1 A) : bool := length t =? n.
Definition has_shape2 (m n : nat) (t : tensor2 A) : bool :=
  (length t =? m) && forallb (has_shape1 n) t.
Definition has_shape3 (l m n : nat) (t : tensor3 A) : bool :=
  (length t =? l) && forallb (has_shape2 m n) t.
Definition has_shape4 (k l m n : nat) (t : tensor4 A) : bool :=
  (length t =? k) && forallb (has_shape3 l m n) t.

Definition shape_eqb (s1 s2 : list nat) : bool :=
  if list_eq_dec Nat.eq_dec s1 s2 then true else false.

(** Element access, for statements. *)
Definition get1 (t : tensor1 A) (i : nat) : A := nth i t zero.
Definition get2 (t : tensor2 A) (i j : nat) : A := get1 (nth i t []) j.
Definition get3 (t : tensor3 A) (i j k : nat) : A := get2 (nth i t []) j k.
Definition get4 (t : tensor4 A) (i j k l : nat) : A := get3 (nth i t []) j k l.

(** [torch.stack(ts)] along a new first axis: the list must be non-empty and
    its tensors must have one shape, else a [RuntimeError]. *)
Definition stack {X : Type} (shape : X -> list nat) (ts : list X)
  : result (list X) :=
  match ts with
  | [] => Raise RuntimeError
  | t :: rest =>
      if forallb (fun u => shape_eqb (shape u) (shape t)) rest
      then Ok ts
      else Raise RuntimeError
  end.

(** [torch.transpose(t, 1, 0)] on the two outer axes; the first axis is never
    empty where the program calls it (it comes out of [stack]). *)
Fixpoint zip_with {X Y Z : Type} (f : X -> Y -> Z) (xs : list X) (ys : list Y)
  : list Z :=
  match xs, ys with
  | x :: xs', y :: ys' => f x y :: zip_with f xs' ys'
  | _, _ => []
  end.

Fixpoint transpose {X : Type} (rows : list (list X)) : list (list X) :=
  match rows with
  | [] => []
  | r :: rest =>
      match rest with
      | [] => map (fun x => [x]) r
      | _ :: _ => zip_with cons r (transpose rest)
      end
  end.

(** Element-wise addition of tensors of one shape. *)
Definition add1 : tensor1 A -> tensor1 A -> tensor1 A := zip_with add.
Definition add2 : tensor2 A -> tensor2 A -> tensor2 A := zip_with add1.
Definition add3 : tensor3 A -> tensor3 A -> tensor3 A := zip_with add2.

(** [torch.zeros_like], the accumulator a reduction starts from. *)
Definition zeros1 (t : tensor1 A) : tensor1 A := map (fun _ => zero) t.
Definition zeros2 (t : tensor2 A) : tensor2 A := map zeros1 t.
Definition zeros3 (t : tensor3 A) : tensor3 A := map zeros2 t.

(** [torch.sum(t, 0)], the first axis summed away, slice after slice. *)
Definition sum1 (t : tensor1 A) : A := fold_left add t zero.
Definition sum2 (t : tensor2 A) : tensor1 A := fold_left add1 t (zeros1 (hd [] t)).
Definition sum4 (t : tensor4 A) : tensor3 A := fold_left add3 t (zeros3 (hd [] t)).

(** [torch.mean(t, (0, 1, 2))] on a four-axis tensor: the sum over the three
    outer axes divided by the product of their sizes. *)
Definition mean012 (t : tensor4 A) : tensor1 A :=
  let count := length t * length (hd [] t) * length (hd [] (hd [] t)) in
  map (fun s => div s (of_nat count)) (sum2 (concat (concat t))).

(** Broadcasting of one axis of a binary element-wise operation: equal sizes
    pair up, a size of one is repeated, anything else is a [RuntimeError]. *)
Definition broadcast {X Y Z : Type} (f : X -> Y -> result Z)
    (xs : list X) (ys : list Y) : result (list Z) :=
  if length xs =? length ys
  then mapM (fun xy => f (fst xy) (snd xy)) (combine xs ys)
  else match xs, ys with
       | [x], _ => mapM (f x) ys
       | _, [y] => mapM (fun x => f x y) xs
       | _, _ => Raise RuntimeError
       end.

(** [a * b] on three-axis tensors. *)
Definition mul3 (a b : tensor3 A) : result (tensor3 A) :=
  broadcast (broadcast (broadcast (fun x y => Ok (mul x y)))) a b.

(** [t.unsqueeze(2)] and [torch.unsqueeze(v, 1)]. *)
Definition unsqueeze2 (t : tensor2 A) : tensor3 A := map (map (fun x => [x])) t.
Definition unsqueeze1 (v : tensor1 A) : tensor2 A := map (fun x => [x]) v.

(** [a / b] for [a] of shape (B, T) and [b] of shape (B, 1): the divisor of a
    row is repeated along it. *)
Definition div2 (a b : tensor2 A) : result (tensor2 A) :=
  broadcast (broadcast (fun x y => Ok (div x y))) a b.

(** [t[:, 0] = 0.0]: an [IndexError] when the second axis is empty. *)
Definition set_column0 (t : tensor2 A) : result (tensor2 A) :=
  mapM (fun row => match row with
                   | [] => Raise IndexError
                   | _ :: rest => Ok (zero :: rest)
                   end) t.

(** ** The encoder's output

    [outputs.hidden_states] and [outputs.attentions] are tuples with one
    tensor per layer, of shapes (B, T, D) and (B, H, T, T). *)
Record model_output : Type := {
  hidden_states : list (tensor3 A);
  attentions : list (tensor4 A)
}.

(** ** The reducer: the body of [create_embeddings] after the model call *)

(** [[xs[i] for i in range(-num_layers, 0)]] *)
Definition last_layers {X : Type} (xs : list X) (num_layers : Z)
  : result (list X) :=
  mapM (getitem xs) (range (- num_layers) 0).

(** Lines 82-84. *)
Definition summed_hidden_states (outputs : model_output) (num_layers : Z)
  : result (tensor3 A) :=
  layers <- last_layers (hidden_states outputs) num_layers ;;
  stacked <- stack shape3 layers ;;
  Ok (sum4 stacked).

(** Lines 86-88: stacked to (k, B, H, T, T), then batch axis first. *)
Definition stacked_attentions (outputs : model_output) (num_layers : Z)
  : result (tensor5 A) :=
  layers <- last_layers (attentions outputs) num_layers ;;
  stacked <- stack shape4 layers ;;
  Ok (transpose stacked).

(** Line 90; axes 1, 2, 3 of the whole are axes 0, 1, 2 of each image. *)
Definition attentions_reduced (atts : tensor5 A) : tensor2 A := map mean012 atts.

(** Lines 94-97. *)
Definition attentions_reweighted (reduced : tensor2 A) : result (tensor2 A) :=
  zeroed <- set_column0 reduced ;;
  div2 zeroed (unsqueeze1 (map sum1 zeroed)).

(** Lines 99-100. *)
Definition embeddings (hidden : tensor3 A) (weights : tensor2 A) : result (tensor2 A) :=
  weighted <- mul3 hidden (unsqueeze2 weights) ;;
  Ok (map sum2 weighted).

Definition reducer (outputs : model_output) (num_layers : Z) : result (tensor2 A) :=
  hidden <- summed_hidden_states outputs num_layers ;;
  atts <- stacked_attentions outputs num_layers ;;
  weights <- attentions_reweighted (attentions_reduced atts) ;;
  embeddings hidden weights.

End Tensors.

Arguments model_output A : clear implicits.

(** ** The class [imgbeddings] *)

Section Orchestrator.

Context {A : Type} `{Scalar A}.

(** What the file imports and does not define: the image type, the
    processor's output, [utils.square_pad], [self.processor] (with centre
    cropping off) and [self.model] (in evaluation mode). *)
Variables image pixels : Type.
Variable square_pad : image -> image.
Variable processor : list image -> pixels.
Variable model : pixels -> model_output A.

(** The argument [inputs]: a list of images, or anything else. *)
Inductive py_inputs : Type :=
| NotList (x : image)
| PyList (xs : list image).

(** The objects the variable [embeddings] is bound to. *)
Inductive py_value : Type :=
| EmptyList
| Tensor (t : tensor2 A)
| NdArray (t : tensor2 A).

(** [v.numpy()]: a method of [torch.Tensor] only. *)
Definition numpy (v : py_value) : result py_value :=
  match v with
  | Tensor t => Ok (NdArray t)
  | _ => Raise AttributeError
  end.

(** [np.vstack(v)]: the items of [v] are stacked as rows; nothing to stack is
    a [ValueError]. *)
Definition np_vstack (v : py_value) : result py_value :=
  match v with
  | EmptyList => Raise ValueError
  | Tensor [] | NdArray [] => Raise ValueError
  | Tensor t | NdArray t => Ok (NdArray t)
  end.

(** [torch.as_tensor(v)] *)
Definition torch_as_tensor (v : py_value) : result py_value :=
  match v with
  | EmptyList => Ok (Tensor [])
  | Tensor t | NdArray t => Ok (Tensor t)
  end.

Definition process_inputs (inputs : list image) : pixels :=
  processor (map square_pad inputs).

Definition create_embeddings (inputs : pixels) (num_layers : Z)
  : result (tensor2 A) :=
  reducer (model inputs) num_layers.

(** The generator [batch(iterable, n)], run to its end. *)
Definition batch (iterable : list image) (n : Z) : result (list (list image)) :=
  let length := Z.of_nat (List.length iterable) in
  ndxs <- range_step 0 length n ;;
  Ok (map (fun ndx => slice iterable ndx (Z.min (ndx + n) length)) ndxs).

(** The [for] loop of lines 58-61; [embeddings] is the loop-carried variable.
    The progress bar and the log line have no part in the result. *)
Fixpoint for_input_batch (num_layers : Z) (batches : list (list image))
    (embeddings : py_value) : result py_value :=
  match batches with
  | [] => Ok embeddings
  | input_batch :: rest =>
      let image_inputs := process_inputs input_batch in
      e <- create_embeddings image_inputs num_layers ;;
      for_input_batch num_layers rest (Tensor e)
  end.

Definition to_embeddings (inputs : py_inputs) (num_layers batch_size : Z)
    (return_format : string) : result py_value :=
  let inputs := match inputs with
                | NotList x => [x]
                | PyList xs => xs
                end in
  if (Z.of_nat (List.length inputs) <? batch_size)%Z then
    let image_inputs := process_inputs inputs in
    e <- create_embeddings image_inputs num_layers ;;
    if String.eqb return_format "np" then numpy (Tensor e) else Ok (Tensor e)
  else
    batches <- batch inputs batch_size ;;
    embeddings <- for_input_batch num_layers batches EmptyList ;;
    embeddings <- np_vstack embeddings ;;
    if String.eqb return_format "np" then numpy embeddings
    else torch_as_tensor embeddings.

End Orchestrator.

Arguments NotList {image} x.
Arguments PyList {image} xs.
Arguments EmptyList {A}.
Arguments process_inputs {image pixels} square_pad processor inputs.
Arguments create_embeddings {A H pixels} model inputs num_layers.
Arguments batch {image} iterable n.
Arguments for_input_batch {A H image pixels} square_pad processor model
  num_layers batches embeddings.
Arguments to_embeddings {A H image pixels} square_pad processor model
  inputs num_layers batch_size return_format.

(** ** Notions used in the statements *)

(** The last [k] entries of a tuple. *)
Definition window {X : Type} (xs : list X) (k : nat) : list X :=
  skipn (length xs - k) xs.

Section Contract.

Context {A : Type} `{Scalar A}.

(** The contract of the reducer: the last [k] layers exist and have the
    shapes (B, T, D) and (B, H, T, T), with k, B, H, D >= 1 and T >= 2. *)
Definition valid_hidden_window (outputs : model_output A) (k B T D : nat) : bool :=
  (1 <=? k) && (k <=? length (hidden_states outputs))
  && (1 <=? B) && (2 <=? T) && (1 <=? D)
  && forallb (has_shape3 B T D) (window (hidden_states outputs) k).

Definition valid_attention_window (outputs : model_output A) (k B H' T : nat)
  : bool :=
  (1 <=? k) && (k <=? length (attentions outputs))
  && (1 <=? B) && (1 <=? H') && (2 <=? T)
  && forallb (has_shape4 B H' T T) (window (attentions outputs) k).

(** Steps 3 and 4 on one row: the class-token weight set to zero, then every
    weight divided by the sum of the row. *)
Definition normalized_row (r : tensor1 A) : tensor1 A :=
  let z := zero :: tl r in
  map (fun x => div x (sum1 z)) z.

(** Step 5 on one image: the token vectors scaled by their weights and
    summed. *)
Definition scale (v : tensor1 A) (x : A) : tensor1 A :=
  map (fun a => mul a x) v.

Definition weighted_sum (img : tensor2 A) (w : tensor1 A) : tensor1 A :=
  sum2 (zip_with scale img w).

(** The class-token vector of every image replaced by a row of [c]. *)
Definition replace_class_token (hidden : tensor3 A) (c : tensor2 A) : tensor3 A :=
  zip_with (fun img v => v :: tl img) hidden c.

(** The slice [b : b + 1] along the batch axis of every tensor of the
    encoder's output: the output for image [b] alone. *)
Definition select_image (b : nat) (outputs : model_output A) : model_output A :=
  {| hidden_states := map (fun layer => [nth b layer []]) (hidden_states outputs);
     attentions := map (fun layer => [nth b layer []]) (attentions outputs) |}.

End Contract.

(** ** Concrete inputs *)

Definition frac (n : Z) (d : positive) : Qc := Q2Qc (n # d).

(** Equality test on rows of rationals, by numerators and denominators. *)
Definition Qc_eqb (x y : Qc) : bool := Qeq_bool (this x) (this y).

Fixpoint row_eqb (u v : tensor1 Qc) : bool :=
  match u, v with
  | [], [] => true
  | x :: u', y :: v' => Qc_eqb x y && row_eqb u' v'
  | _, _ => false
  end.

(** The scenario B = 2, T = 3, D = 4, k = 1, H = 1: the hidden states of the
    last layer, and one attention head in which every query attends to the
    keys of image 0 with weights 0.5, 0.3, 0.2. *)
Definition scenario_image0 : tensor2 Qc :=
  [[frac 1 1; frac 1 1; frac 1 1; frac 1 1];
   [frac 2 1; frac 0 1; frac 0 1; frac 0 1];
   [frac 0 1; frac 2 1; frac 0 1; frac 0 1]].

Definition scenario_image1 : tensor2 Qc :=
  [[frac 1 1; frac 1 1; frac 1 1; frac 1 1];
   [frac 0 1; frac 0 1; frac 3 1; frac 0 1];
   [frac 0 1; frac 0 1; frac 0 1; frac 3 1]].

Definition scenario_keys0 : tensor1 Qc := [frac 1 2; frac 3 10; frac 1 5].
Definition scenario_keys1 : tensor1 Qc := [frac 1 3; frac 1 3; frac 1 3].

Definition scenario_outputs : model_output Qc :=
  {| hidden_states := [[scenario_image0; scenario_image1]];
     attentions :=
       [[[[scenario_keys0; scenario_keys0; scenario_keys0]];
         [[scenario_keys1; scenario_keys1; scenario_keys1]]]] |}.

(** Test for a rational that is not negative. *)
Definition nonnegb (x : Qc) : bool := Qle_bool 0 (this x).

(** The scenario with the hidden states listed twice: two hidden states for
    one layer of attentions, as an encoder that also returns its input
    embeddings gives them. *)
Definition scenario_two_hidden : model_output Qc :=
  {| hidden_states := hidden_states scenario_outputs
                      ++ hidden_states scenario_outputs;
     attentions := attentions scenario_outputs |}.

(** A binary32 input (B = 2, T = 3, D = 2, k = 1, H = 1) in which every query
    of image 1 puts its whole attention on the class token. *)
Definition f32 (z : Z) : float32 := binary_normalize prec32 emax32 z 0 false.

Definition degenerate_outputs : model_output float32 :=
  {| hidden_states :=
       [[[[f32 1; f32 1]; [f32 2; f32 0]; [f32 0; f32 2]];
         [[f32 1; f32 1]; [f32 4; f32 0]; [f32 0; f32 4]]]];
     attentions :=
       [[[[[f32 1; f32 1; f32 2]; [f32 1; f32 1; f32 2]; [f32 1; f32 1; f32 2]]];
         [[[f32 1; f32 0; f32 0]; [f32 1; f32 0; f32 0]; [f32 1; f32 0; f32 0]]]]] |}.

(** A row of [n] NaNs. *)
Definition nan_row (n : nat) (v : tensor1 float32) : bool :=
  (length v =? n) && forallb is_nan v.

(** A binary32 input whose windows disagree on the batch size: hidden states
    for two images (B = 2, T = 3, D = 2), attentions for one (B = 1, H = 1,
    T = 3). *)
Definition mismatched_outputs : model_output float32 :=
  {| hidden_states :=
       [[[[f32 1; f32 1]; [f32 2; f32 0]; [f32 0; f32 2]];
         [[f32 1; f32 1]; [f32 4; f32 0]; [f32 0; f32 4]]]];
     attentions :=
       [[[[[f32 1; f32 1; f32 3]; [f32 1; f32 1; f32 3]; [f32 1; f32 1; f32 3]]]]] |}.

(** An encoder output of three layers with two attention heads (B = 2,
    T = 3, D = 4), for statements about a window of the last two layers. *)
Definition deep_outputs : model_output Qc :=
  {| hidden_states :=
       [[scenario_image1; scenario_image0];
        [scenario_image0; scenario_image1];
        [scenario_image1; scenario_image1]];
     attentions :=
       [[[[scenario_keys1; scenario_keys1; scenario_keys1];
          [scenario_keys1; scenario_keys1; scenario_keys1]];
         [[scenario_keys0; scenario_keys0; scenario_keys0];
          [scenario_keys0; scenario_keys0; scenario_keys0]]];
        [[[scenario_keys0; scenario_keys0; scenario_keys0];
          [scenario_keys1; scenario_keys0; scenario_keys1]];
         [[scenario_keys1; scenario_keys1; scenario_keys1];
          [scenario_keys0; scenario_keys1; scenario_keys0]]];
        [[[scenario_keys0; scenario_keys1; scenario_keys1];
          [scenario_keys0; scenario_keys0; scenario_keys0]];
         [[scenario_keys1; scenario_keys0; scenario_keys0];
          [scenario_keys1; scenario_keys1; scenario_keys1]]]] |}.

(** A binary32 importance row (B = 1, T = 4) whose normalized weights
    0, 4/61, 16/61, 41/61 are all rounded, with the hidden states of four
    tokens of two features: once with an infinite entry in the class-token
    vector, once with a finite one; and a replacement class-token vector. *)
Definition rounding_reduced : tensor2 float32 :=
  [[f32 9; f32 4; f32 16; f32 41]].

Definition infinite_class_hidden : tensor3 float32 :=
  [[[S754_infinity false; f32 1]; [f32 2; f32 0]; [f32 0; f32 2];
    [f32 1; f32 1]]].

Definition finite_class_hidden : tensor3 float32 :=
  [[[f32 7; f32 1]; [f32 2; f32 0]; [f32 0; f32 2]; [f32 1; f32 1]]].

Definition finite_class_tokens : tensor2 float32 := [[f32 5; f32 5]].

(** The same importance row in exact arithmetic. *)
Definition exact_reduced : tensor2 Qc :=
  [[frac 9 1; frac 4 1; frac 16 1; frac 41 1]].

(** A stand-in encoder for running the orchestrator: an image is a number
    [v]; its hidden states are one layer of three tokens with two features,
    all equal to [v]; every query attends equally to every key.  The weights
    come out as 0, 1/2, 1/2, so the embedding of the image [v] is [[v; v]]. *)
Definition toy_square_pad (x : Z) : Z := x.

Definition toy_processor (images : list Z) : list float32 := map f32 images.

Definition toy_model (pixels : list float32) : model_output float32 :=
  {| hidden_states :=
       [map (fun v => [[v; v]; [v; v]; [v; v]]) pixels];
     attentions :=
       [map (fun _ => [[[f32 1; f32 1; f32 1];
                        [f32 1; f32 1; f32 1];
                        [f32 1; f32 1; f32 1]]]) pixels] |}.

(** The same encoder, except that a batch with a black image (value 0)
    comes back without any layer. *)
Definition picky_model (pixels : list float32) : model_output float32 :=
  if existsb is_zero pixels
  then {| hidden_states := []; attentions := [] |}
  else toy_model pixels.

Definition toy_to_embeddings (inputs : py_inputs Z) (num_layers batch_size : Z)
    (return_format : string) : result py_value :=
  to_embeddings toy_square_pad toy_processor toy_model
                inputs num_layers batch_size return_format.

(** A binary32 input whose windows disagree on the token count: three tokens
    in the hidden states, two in the attentions. *)
Definition incompatible_outputs : model_output float32 :=
  {| hidden_states :=
       [[[[f32 1; f32 1]; [f32 2; f32 0]; [f32 0; f32 2]];
         [[f32 1; f32 1]; [f32 4; f32 0]; [f32 0; f32 4]]]];
     attentions :=
       [[[[[f32 1; f32 1]; [f32 1; f32 1]]];
         [[[f32 1; f32 1]; [f32 1; f32 1]]]]] |}.

(** ** The reducer over a heap of tensor objects

    [create_embeddings] writes into a tensor in place (line 94).  To say what
    that write can reach, the same lines are embedded once more with the
    tensors held in a heap: a variable holds a reference, an operation that
    returns a new tensor allocates a cell, [transpose] and [unsqueeze] return
    a view on the cell of their argument, and two names for one tensor are
    one reference.  [reducer] above is the value this program computes. *)

Section Heap.

Context {A : Type} `{Scalar A}.

Inductive value : Type :=
| V1 (t : tensor1 A)
| V2 (t : tensor2 A)
| V3 (t : tensor3 A)
| V4 (t : tensor4 A)
| V5 (t : tensor5 A).

Inductive view : Type :=
| Transposed
| Unsqueezed1
| Unsqueezed2.

(** A tensor object: the cell of its storage and the views taken on it. *)
Record tensor_ref : Type := {
  storage : nat;
  views : list view
}.

Definition heap : Type := list value.

Definition apply_view (v : result value) (vw : view) : result value :=
  x <- v ;;
  match vw, x with
  | Transposed, V5 t => Ok (V5 (transpose t))
  | Unsqueezed1, V1 t => Ok (V2 (unsqueeze1 t))
  | Unsqueezed2, V2 t => Ok (V3 (unsqueeze2 t))
  | _, _ => Raise RuntimeError
  end.

Definition as2 (v : value) : result (tensor2 A) :=
  match v with V2 t => Ok t | _ => Raise RuntimeError end.
Definition as3 (v : value) : result (tensor3 A) :=
  match v with V3 t => Ok t | _ => Raise RuntimeError end.
Definition as4 (v : value) : result (tensor4 A) :=
  match v with V4 t => Ok t | _ => Raise RuntimeError end.
Definition as5 (v : value) : result (tensor5 A) :=
  match v with V5 t => Ok t | _ => Raise RuntimeError end.

(** Computations that read and write the heap and may raise; the heap
    outlives an exception. *)
Definition M (X : Type) : Type := heap -> result X * heap.

Definition ret {X : Type} (x : X) : M X := fun h => (Ok x, h).

Definition lift {X : Type} (r : result X) : M X := fun h => (r, h).

Definition bindM {X Y : Type} (m : M X) (k : X -> M Y) : M Y :=
  fun h =>
    match m h with
    | (Ok x, h') => k x h'
    | (Raise e, h') => (Raise e, h')
    end.

Notation "x <~ c ;; k" := (bindM c (fun x => k))
  (at level 61, c at next level, right associativity).

Fixpoint mapMM {X Y : Type} (f : X -> M Y) (xs : list X) : M (list Y) :=
  match xs with
  | [] => ret []
  | x :: rest =>
      y <~ f x ;;
      ys <~ mapMM f rest ;;
      ret (y :: ys)
  end.

Definition alloc (v : value) : M tensor_ref :=
  fun h => (Ok {| storage := length h; views := [] |}, h ++ [v]).

Definition read (r : tensor_ref) : M value :=
  fun h =>
    (match nth_error h (storage r) with
     | Some v => fold_left apply_view (views r) (Ok v)
     | None => Raise RuntimeError
     end, h).

Definition update (h : heap) (i : nat) (v : value) : heap :=
  firstn i h ++ v :: skipn (S i) h.

(** [t[:, 0] = 0.0]; the program applies it to a tensor that is no view. *)
Definition setitem_column0 (r : tensor_ref) : M unit :=
  fun h =>
    match views r, nth_error h (storage r) with
    | [], Some (V2 t) =>
        match set_column0 t with
        | Ok t' => (Ok tt, update h (storage r) (V2 t'))
        | Raise e => (Raise e, h)
        end
    | _, _ => (Raise RuntimeError, h)
    end.

Definition torch_stack3 (rs : list tensor_ref) : M tensor_ref :=
  vs <~ mapMM read rs ;;
  ts <~ lift (mapM as3 vs) ;;
  stacked <~ lift (stack shape3 ts) ;;
  alloc (V4 stacked).

Definition torch_stack4 (rs : list tensor_ref) : M tensor_ref :=
  vs <~ mapMM read rs ;;
  ts <~ lift (mapM as4 vs) ;;
  stacked <~ lift (stack shape4 ts) ;;
  alloc (V5 stacked).

Definition torch_sum4 (r : tensor_ref) : M tensor_ref :=
  v <~ read r ;;
  t <~ lift (as4 v) ;;
  alloc (V3 (sum4 t)).

Definition add_view (vw : view) (r : tensor_ref) : M tensor_ref :=
  ret {| storage := storage r; views := views r ++ [vw] |}.

Definition torch_transpose : tensor_ref -> M tensor_ref := add_view Transposed.
Definition torch_unsqueeze1 : tensor_ref -> M tensor_ref := add_view Unsqueezed1.
Definition torch_unsqueeze2 : tensor_ref -> M tensor_ref := add_view Unsqueezed2.

Definition torch_mean123 (r : tensor_ref) : M tensor_ref :=
  v <~ read r ;;
  t <~ lift (as5 v) ;;
  alloc (V2 (attentions_reduced t)).

Definition torch_sum_rows (r : tensor_ref) : M tensor_ref :=
  v <~ read r ;;
  t <~ lift (as2 v) ;;
  alloc (V1 (map sum1 t)).

Definition torch_div (a b : tensor_ref) : M tensor_ref :=
  x <~ read a ;;
  x <~ lift (as2 x) ;;
  y <~ read b ;;
  y <~ lift (as2 y) ;;
  q <~ lift (div2 x y) ;;
  alloc (V2 q).

Definition torch_mul (a b : tensor_ref) : M tensor_ref :=
  x <~ read a ;;
  x <~ lift (as3 x) ;;
  y <~ read b ;;
  y <~ lift (as3 y) ;;
  p <~ lift (mul3 x y) ;;
  alloc (V3 p).

Definition torch_sum_tokens (r : tensor_ref) : M tensor_ref :=
  v <~ read r ;;
  t <~ lift (as3 v) ;;
  alloc (V2 (map sum2 t)).

(** [outputs.hidden_states] and [outputs.attentions] as tuples of tensor
    objects. *)
Record model_output_refs : Type := {
  hidden_state_refs : list tensor_ref;
  attention_refs : list tensor_ref
}.

(** Lines 82-100, statement by statement. *)
Definition reducer_heap (outputs : model_output_refs) (num_layers : Z)
  : M tensor_ref :=
  layers <~ lift (last_layers (hidden_state_refs outputs) num_layers) ;;
  stacked <~ torch_stack3 layers ;;
  hidden_states <~ torch_sum4 stacked ;;
  layers <~ lift (last_layers (attention_refs outputs) num_layers) ;;
  attentions <~ torch_stack4 layers ;;
  attentions <~ torch_transpose attentions ;;
  attentions_reduced <~ torch_mean123 attentions ;;
  let attentions_reweighted := attentions_reduced in
  _ <~ setitem_column0 attentions_reweighted ;;
  sums <~ torch_sum_rows attentions_reweighted ;;
  sums <~ torch_unsqueeze1 sums ;;
  attentions_reweighted <~ torch_div attentions_reweighted sums ;;
  weights <~ torch_unsqueeze2 attentions_reweighted ;;
  embeddings <~ torch_mul hidden_states weights ;;
  torch_sum_tokens embeddings.

(** The array behind the result of a run, or the exception it raised. *)
Definition fetch (run : result tensor_ref * heap) : result (tensor2 A) :=
  match fst run with
  | Ok r => v <- fst (read r (snd run)) ;; as2 v
  | Raise e => Raise e
  end.

(** The heap holds the encoder's output at the given references. *)
Definition stored (h : heap) (r : tensor_ref) (v : value) : Prop :=
  fst (read r h) = Ok v.

Definition represents (h : heap) (refs : model_output_refs)
    (outputs : model_output A) : Prop :=
  Forall2 (fun r t => stored h r (V3 t))
          (hidden_state_refs refs) (hidden_states outputs)
  /\ Forall2 (fun r t => stored h r (V4 t))
             (attention_refs refs) (attentions outputs).

(** A run from the heap [h] refines a result: it leaves [h] followed by
    fresh cells, and it returns or raises what the result says. *)
Definition run_refines (h : heap) (run : result tensor_ref * heap)
    (res : result (tensor2 A)) : Prop :=
  (exists fresh, snd run = h ++ fresh) /\ fetch run = res.

End Heap.

Arguments value A : clear implicits.
Arguments heap A : clear implicits.

(** The scenario of C1 in a heap of two cells. *)
Definition scenario_heap : heap Qc :=
  [V3 [scenario_image0; scenario_image1];
   V4 [[[scenario_keys0; scenario_keys0; scenario_keys0]];
       [[scenario_keys1; scenario_keys1; scenario_keys1]]]].

Definition scenario_refs : model_output_refs :=
  {| hidden_state_refs := [{| storage := 0; views := [] |}];
     attention_refs := [{| storage := 1; views := [] |}] |}.

(** Two results that raise the same exception or return related values. *)
Definition rel_result {X Y : Type} (R : X -> Y -> Prop)
    (r1 : result X) (r2 : result Y) : Prop :=
  match r1, r2 with
  | Ok x, Ok y => R x y
  | Raise e1, Raise e2 => e1 = e2
  | _, _ => False
  end.

(** * Properties *)

(** ** The error monad and Python sequences *)

Lemma mapM_ok {X Y : Type} (f : X -> result Y) (g : X -> Y) (xs : list X) :
  (forall x, In x xs -> f x = Ok (g x)) -> mapM f xs = Ok (map g xs).
Proof.
  induction xs as [|x rest IH]; intros Hf; simpl.
  - reflexivity.
  - rewrite (Hf x) by (left; reflexivity). simpl.
    rewrite IH by (intros y Hy; apply Hf; right; exact Hy).
    reflexivity.
Qed.

Lemma mapM_raise {X Y : Type} (f : X -> result Y) (xs : list X) (e : error) :
  xs <> [] -> (forall x, In x xs -> f x = Raise e) -> mapM f xs = Raise e.
Proof.
  destruct xs as [|x rest]; intros Hne Hf; [contradiction|].
  simpl. rewrite (Hf x) by (left; reflexivity). reflexivity.
Qed.

Lemma window_length {X : Type} (xs : list X) (k : nat) :
  k <= length xs -> length (window xs k) = k.
Proof. intros Hk. unfold window. rewrite length_skipn. lia. Qed.

Lemma skipn_seq_nth {X : Type} (xs : list X) (d : X) (m k : nat) :
  m + k = length xs ->
  map (fun i => nth (m + i) xs d) (seq 0 k) = skipn m xs.
Proof.
  revert xs. induction m as [|m IH]; intros xs Hlen; simpl.
  - replace k with (length xs) by lia. clear Hlen.
    induction xs as [|x rest IHx]; simpl; [reflexivity|].
    f_equal. rewrite <- seq_shift, map_map. exact IHx.
  - destruct xs as [|x rest]; simpl in Hlen; [lia|].
    apply IH. lia.
Qed.

Lemma getitem_negative {X : Type} (xs : list X) (d : X) (k i : nat) :
  k <= length xs -> i < k ->
  getitem xs (- Z.of_nat k + Z.of_nat i) = Ok (nth (length xs - k + i) xs d).
Proof.
  intros Hk Hi. unfold getitem.
  assert (Hneg : (- Z.of_nat k + Z.of_nat i <? 0)%Z = true)
    by (apply Z.ltb_lt; lia).
  rewrite Hneg.
  replace (- Z.of_nat k + Z.of_nat i + Z.of_nat (length xs))%Z
    with (Z.of_nat (length xs - k + i)) by lia.
  assert (Hin : ((Z.of_nat (length xs - k + i) <? 0)
                 || (Z.of_nat (length xs) <=? Z.of_nat (length xs - k + i)))%Z
                = false).
  { apply orb_false_iff. split; [apply Z.ltb_ge | apply Z.leb_gt]; lia. }
  rewrite Hin, Nat2Z.id.
  rewrite (nth_error_nth' xs d) by lia. reflexivity.
Qed.

Lemma last_layers_window {X : Type} (xs : list X) (k : nat) :
  k <= length xs -> last_layers xs (Z.of_nat k) = Ok (window xs k).
Proof.
  intros Hk. unfold last_layers, range.
  replace (0 - - Z.of_nat k)%Z with (Z.of_nat k) by lia.
  rewrite Nat2Z.id.
  destruct xs as [|d rest] eqn:Exs.
  - simpl in Hk. replace k with 0 by lia. reflexivity.
  - rewrite <- Exs in *. clear Exs rest.
    unfold window. rewrite <- (skipn_seq_nth xs d (length xs - k) k) by lia.
    assert (Hall : forall i, In i (seq 0 k) -> i < k)
      by (intros i Hin; apply in_seq in Hin; lia).
    revert Hall. generalize (seq 0 k) as idx.
    induction idx as [|i rest IH]; intros Hall; simpl; [reflexivity|].
    rewrite (getitem_negative xs d) by (try apply Hall; simpl; auto).
    simpl. rewrite IH by (intros j Hj; apply Hall; right; exact Hj).
    reflexivity.
Qed.

Lemma getitem_below {X : Type} (xs : list X) (i : Z) :
  (i + Z.of_nat (length xs) < 0)%Z -> getitem xs i = Raise IndexError.
Proof.
  intros Hi. unfold getitem.
  destruct (Z.ltb_spec i 0) as [_|Hge]; [|lia].
  destruct (Z.ltb_spec (i + Z.of_nat (length xs)) 0) as [_|Hge]; [|lia].
  reflexivity.
Qed.

Lemma last_layers_too_many {X : Type} (xs : list X) (k : nat) :
  length xs < k -> last_layers xs (Z.of_nat k) = Raise IndexError.
Proof.
  intros Hk. unfold last_layers, range.
  replace (0 - - Z.of_nat k)%Z with (Z.of_nat k) by lia.
  rewrite Nat2Z.id. destruct k as [|k]; [lia|].
  cbn [seq map mapM]. rewrite getitem_below by lia. reflexivity.
Qed.

Lemma last_layers_none {X : Type} (xs : list X) (k : Z) :
  (k <= 0)%Z -> last_layers xs k = Ok [].
Proof.
  intros Hk. unfold last_layers, range.
  replace (Z.to_nat (0 - - k)) with 0 by lia. reflexivity.
Qed.

(** ** Element-wise operations and reductions along the first axis *)

Lemma zip_with_length {X Y Z : Type} (f : X -> Y -> Z) (xs : list X) (ys : list Y) :
  length (zip_with f xs ys) = Nat.min (length xs) (length ys).
Proof.
  revert ys. induction xs as [|x xs IH]; intros [|y ys]; simpl; auto.
Qed.

Lemma zip_with_nth {X Y Z : Type} (f : X -> Y -> Z) (xs : list X) (ys : list Y)
    (dx : X) (dy : Y) (dz : Z) (i : nat) :
  i < length xs -> i < length ys ->
  nth i (zip_with f xs ys) dz = f (nth i xs dx) (nth i ys dy).
Proof.
  revert ys i. induction xs as [|x xs IH]; intros [|y ys] [|i]; simpl;
    intros Hx Hy; try lia; [reflexivity|].
  apply IH; lia.
Qed.

Lemma zip_with_forallb {X : Type} (f : X -> X -> X) (ok : X -> bool)
    (xs ys : list X) :
  (forall x y, ok x = true -> ok y = true -> ok (f x y) = true) ->
  forallb ok xs = true -> forallb ok ys = true ->
  forallb ok (zip_with f xs ys) = true.
Proof.
  intros Hf. revert ys. induction xs as [|x xs IH]; intros [|y ys]; simpl; auto.
  intros Hx Hy. apply andb_true_iff in Hx, Hy.
  apply andb_true_iff. split; [apply Hf | apply IH]; tauto.
Qed.

Lemma forallb_nth {X : Type} (ok : X -> bool) (xs : list X) (d : X) (i : nat) :
  forallb ok xs = true -> i < length xs -> ok (nth i xs d) = true.
Proof.
  intros Hall Hi. rewrite forallb_forall in Hall. apply Hall, nth_In, Hi.
Qed.

(** One more axis on top of a family [X] of tensors with an element-wise
    addition [addX], a shape test [okX] and a read-out [getX] of one entry. *)
Section OneMoreAxis.

Context {A : Type} `{Scalar A}.
Variables (X : Type) (addX : X -> X -> X) (zerosX : X -> X).
Variables (okX : X -> bool) (getX : X -> A) (dX : X).

Hypothesis okX_add :
  forall x y, okX x = true -> okX y = true -> okX (addX x y) = true.
Hypothesis getX_add :
  forall x y, okX x = true -> okX y = true ->
              getX (addX x y) = add (getX x) (getX y).
Hypothesis okX_zeros : forall x, okX x = true -> okX (zerosX x) = true.
Hypothesis getX_zeros : forall x, okX x = true -> getX (zerosX x) = zero.

Variable n : nat.

Local Abbreviation okL t := ((length t =? n) && forallb okX t).

Lemma okL_add (s t : list X) :
  okL s = true -> okL t = true -> okL (zip_with addX s t) = true.
Proof.
  intros Hs Ht. apply andb_true_iff in Hs, Ht.
  destruct Hs as [Ls Fs], Ht as [Lt Ft]. apply Nat.eqb_eq in Ls, Lt.
  apply andb_true_iff. split.
  - apply Nat.eqb_eq. rewrite zip_with_length. lia.
  - apply zip_with_forallb; assumption.
Qed.

Lemma okL_zeros (t : list X) : okL t = true -> okL (map zerosX t) = true.
Proof.
  intros Ht. apply andb_true_iff in Ht. destruct Ht as [Lt Ft].
  apply andb_true_iff. split.
  - rewrite length_map. exact Lt.
  - rewrite forallb_forall in *. intros x Hx. apply in_map_iff in Hx.
    destruct Hx as [y [<- Hy]]. apply okX_zeros, Ft, Hy.
Qed.

Variable i : nat.
Hypothesis i_lt_n : i < n.

Local Abbreviation getL t := (getX (nth i t dX)).

Lemma getL_add (s t : list X) :
  okL s = true -> okL t = true ->
  getL (zip_with addX s t) = add (getL s) (getL t).
Proof.
  intros Hs Ht. apply andb_true_iff in Hs, Ht.
  destruct Hs as [Ls Fs], Ht as [Lt Ft]. apply Nat.eqb_eq in Ls, Lt.
  rewrite (zip_with_nth addX s t dX dX dX) by lia.
  apply getX_add; apply forallb_nth; (assumption || lia).
Qed.

Lemma getL_zeros (t : list X) : okL t = true -> getL (map zerosX t) = zero.
Proof.
  intros Ht. apply andb_true_iff in Ht. destruct Ht as [Lt Ft].
  apply Nat.eqb_eq in Lt.
  rewrite (nth_indep _ dX (zerosX dX)) by (rewrite length_map; lia).
  rewrite map_nth. apply getX_zeros, forallb_nth; (assumption || lia).
Qed.

(** Summing a stack of [X]s slice after slice sums every entry. *)
Lemma fold_left_add_ok (ts : list X) (acc : X) :
  forallb okX ts = true -> okX acc = true ->
  okX (fold_left addX ts acc) = true.
Proof.
  revert acc. induction ts as [|t ts IH]; intros acc Hts Hacc; simpl; auto.
  simpl in Hts. apply andb_true_iff in Hts. destruct Hts as [Ht Hts].
  apply IH; auto.
Qed.

Lemma fold_left_add_get (ts : list X) (acc : X) :
  forallb okX ts = true -> okX acc = true ->
  getX (fold_left addX ts acc) = fold_left add (map getX ts) (getX acc).
Proof.
  revert acc. induction ts as [|t ts IH]; intros acc Hts Hacc; simpl; auto.
  simpl in Hts. apply andb_true_iff in Hts. destruct Hts as [Ht Hts].
  rewrite IH by auto. rewrite getX_add by assumption. reflexivity.
Qed.

Lemma sum_ok (ts : list X) :
  ts <> [] -> forallb okX ts = true ->
  okX (fold_left addX ts (zerosX (hd dX ts))) = true.
Proof.
  intros Hne Hts. apply fold_left_add_ok; [assumption|].
  destruct ts as [|t ts]; [contradiction|]. simpl in *.
  apply andb_true_iff in Hts. apply okX_zeros, Hts.
Qed.

Lemma sum_get (ts : list X) :
  ts <> [] -> forallb okX ts = true ->
  getX (fold_left addX ts (zerosX (hd dX ts))) = sum1 (map getX ts).
Proof.
  intros Hne Hts. unfold sum1. rewrite fold_left_add_get.
  - f_equal. destruct ts as [|t ts]; [contradiction|]. simpl in *.
    apply andb_true_iff in Hts. apply getX_zeros, Hts.
  - assumption.
  - destruct ts as [|t ts]; [contradiction|]. simpl in *.
    apply andb_true_iff in Hts. apply okX_zeros, Hts.
Qed.

End OneMoreAxis.

Section Reductions.

Context {A : Type} `{Scalar A}.

Lemma has_shape1_add (n : nat) (x y : tensor1 A) :
  has_shape1 n x = true -> has_shape1 n y = true ->
  has_shape1 n (add1 x y) = true.
Proof.
  unfold has_shape1, add1. intros Hx Hy. apply Nat.eqb_eq in Hx, Hy.
  apply Nat.eqb_eq. rewrite zip_with_length. lia.
Qed.

Lemma get1_add (n j : nat) (x y : tensor1 A) :
  j < n -> has_shape1 n x = true -> has_shape1 n y = true ->
  get1 (add1 x y) j = add (get1 x j) (get1 y j).
Proof.
  unfold has_shape1, add1, get1. intros Hj Hx Hy. apply Nat.eqb_eq in Hx, Hy.
  apply zip_with_nth; lia.
Qed.

Lemma has_shape1_zeros (n : nat) (x : tensor1 A) :
  has_shape1 n x = true -> has_shape1 n (zeros1 x) = true.
Proof. unfold has_shape1, zeros1. rewrite length_map. auto. Qed.

Lemma get1_zeros (j : nat) (x : tensor1 A) : get1 (zeros1 x) j = zero.
Proof.
  unfold get1, zeros1. revert j.
  induction x as [|a x IH]; intros [|j]; simpl; auto.
Qed.

Lemma has_shape2_add (m n : nat) (x y : tensor2 A) :
  has_shape2 m n x = true -> has_shape2 m n y = true ->
  has_shape2 m n (add2 x y) = true.
Proof. apply okL_add, has_shape1_add. Qed.

Lemma get2_add (m n i j : nat) (x y : tensor2 A) :
  i < m -> j < n -> has_shape2 m n x = true -> has_shape2 m n y = true ->
  get2 (add2 x y) i j = add (get2 x i j) (get2 y i j).
Proof.
  intros Hi Hj. unfold get2.
  apply getL_add with (okX := has_shape1 n) (getX := fun t => get1 t j);
    try assumption; intros; eauto using has_shape1_add, get1_add.
Qed.

Lemma has_shape2_zeros (m n : nat) (x : tensor2 A) :
  has_shape2 m n x = true -> has_shape2 m n (zeros2 x) = true.
Proof. apply okL_zeros, has_shape1_zeros. Qed.

Lemma get2_zeros (m n i j : nat) (x : tensor2 A) :
  i < m -> has_shape2 m n x = true -> get2 (zeros2 x) i j = zero.
Proof.
  intros Hi. unfold get2.
  apply getL_zeros with (okX := has_shape1 n) (getX := fun t => get1 t j);
    auto.
  intros; apply get1_zeros.
Qed.

Lemma has_shape3_add (l m n : nat) (x y : tensor3 A) :
  has_shape3 l m n x = true -> has_shape3 l m n y = true ->
  has_shape3 l m n (add3 x y) = true.
Proof. apply okL_add, has_shape2_add. Qed.

Lemma get3_add (l m n b i j : nat) (x y : tensor3 A) :
  b < l -> i < m -> j < n ->
  has_shape3 l m n x = true -> has_shape3 l m n y = true ->
  get3 (add3 x y) b i j = add (get3 x b i j) (get3 y b i j).
Proof.
  intros Hb Hi Hj. unfold get3.
  apply getL_add with (okX := has_shape2 m n) (getX := fun t => get2 t i j);
    try assumption; intros; eauto using has_shape2_add, get2_add.
Qed.

Lemma has_shape3_zeros (l m n : nat) (x : tensor3 A) :
  has_shape3 l m n x = true -> has_shape3 l m n (zeros3 x) = true.
Proof. apply okL_zeros, has_shape2_zeros. Qed.

Lemma get3_zeros (l m n b i j : nat) (x : tensor3 A) :
  b < l -> i < m -> has_shape3 l m n x = true -> get3 (zeros3 x) b i j = zero.
Proof.
  intros Hb Hi. unfold get3.
  apply getL_zeros with (okX := has_shape2 m n) (getX := fun t => get2 t i j);
    auto.
  intros; eapply get2_zeros; eauto.
Qed.

(** [torch.sum(t, 0)] on a stack of vectors, matrices and three-axis
    tensors. *)
Lemma sum2_shape (n : nat) (t : tensor2 A) :
  t <> [] -> forallb (has_shape1 n) t = true -> has_shape1 n (sum2 t) = true.
Proof. apply sum_ok; auto using has_shape1_add, has_shape1_zeros. Qed.

Lemma sum2_get (n j : nat) (t : tensor2 A) :
  j < n -> t <> [] -> forallb (has_shape1 n) t = true ->
  get1 (sum2 t) j = sum1 (map (fun r => get1 r j) t).
Proof.
  intros Hj.
  apply sum_get with (okX := has_shape1 n) (getX := fun r => get1 r j);
    intros; eauto using has_shape1_add, get1_add, has_shape1_zeros, get1_zeros.
Qed.

Lemma sum4_shape (l m n : nat) (t : tensor4 A) :
  t <> [] -> forallb (has_shape3 l m n) t = true ->
  has_shape3 l m n (sum4 t) = true.
Proof. apply sum_ok; auto using has_shape3_add, has_shape3_zeros. Qed.

Lemma sum4_get (l m n b i j : nat) (t : tensor4 A) :
  b < l -> i < m -> j < n -> t <> [] -> forallb (has_shape3 l m n) t = true ->
  get3 (sum4 t) b i j = sum1 (map (fun x => get3 x b i j) t).
Proof.
  intros Hb Hi Hj.
  apply sum_get with (okX := has_shape3 l m n) (getX := fun x => get3 x b i j);
    auto using has_shape3_add, has_shape3_zeros.
  - intros; eapply get3_add; eauto.
  - intros; eapply get3_zeros; eauto.
Qed.

End Reductions.

Section Windows.

Context {A : Type} `{Scalar A}.

Lemma has_shape1_length (n : nat) (t : tensor1 A) :
  has_shape1 n t = true -> length t = n.
Proof. apply Nat.eqb_eq. Qed.

Lemma has_shape2_inv (m n : nat) (t : tensor2 A) :
  has_shape2 m n t = true ->
  length t = m /\ forallb (has_shape1 n) t = true.
Proof.
  unfold has_shape2. intros Ht. apply andb_true_iff in Ht.
  destruct Ht as [L F]. apply Nat.eqb_eq in L. auto.
Qed.

Lemma has_shape3_inv (l m n : nat) (t : tensor3 A) :
  has_shape3 l m n t = true ->
  length t = l /\ forallb (has_shape2 m n) t = true.
Proof.
  unfold has_shape3. intros Ht. apply andb_true_iff in Ht.
  destruct Ht as [L F]. apply Nat.eqb_eq in L. auto.
Qed.

Lemma has_shape4_inv (k l m n : nat) (t : tensor4 A) :
  has_shape4 k l m n t = true ->
  length t = k /\ forallb (has_shape3 l m n) t = true.
Proof.
  unfold has_shape4. intros Ht. apply andb_true_iff in Ht.
  destruct Ht as [L F]. apply Nat.eqb_eq in L. auto.
Qed.

Lemma has_shape2_shape (m n : nat) (t : tensor2 A) :
  1 <= m -> has_shape2 m n t = true -> shape2 t = [m; n].
Proof.
  intros Hm Ht. apply has_shape2_inv in Ht. destruct Ht as [L F].
  destruct t as [|r t]; simpl in *; [lia|].
  apply andb_true_iff in F. destruct F as [Hr _].
  apply has_shape1_length in Hr. unfold shape2, shape1. simpl. congruence.
Qed.

Lemma has_shape3_shape (l m n : nat) (t : tensor3 A) :
  1 <= l -> 1 <= m -> has_shape3 l m n t = true -> shape3 t = [l; m; n].
Proof.
  intros Hl Hm Ht. apply has_shape3_inv in Ht. destruct Ht as [L F].
  destruct t as [|x t]; simpl in *; [lia|].
  apply andb_true_iff in F. destruct F as [Hx _].
  unfold shape3. simpl. rewrite (has_shape2_shape m n) by assumption.
  congruence.
Qed.

Lemma has_shape4_shape (k l m n : nat) (t : tensor4 A) :
  1 <= k -> 1 <= l -> 1 <= m -> has_shape4 k l m n t = true ->
  shape4 t = [k; l; m; n].
Proof.
  intros Hk Hl Hm Ht. apply has_shape4_inv in Ht. destruct Ht as [L F].
  destruct t as [|x t]; simpl in *; [lia|].
  apply andb_true_iff in F. destruct F as [Hx _].
  unfold shape4. simpl. rewrite (has_shape3_shape l m n) by assumption.
  congruence.
Qed.

Lemma shape_eqb_refl (s : list nat) : shape_eqb s s = true.
Proof. unfold shape_eqb. destruct (list_eq_dec Nat.eq_dec s s); congruence. Qed.

Lemma stack_same_shape {X : Type} (shape : X -> list nat) (s : list nat)
    (ts : list X) :
  ts <> [] -> (forall t, In t ts -> shape t = s) -> stack shape ts = Ok ts.
Proof.
  intros Hne Hs. destruct ts as [|t rest]; [contradiction|].
  unfold stack.
  assert (Hall : forallb (fun u => shape_eqb (shape u) (shape t)) rest = true).
  { apply forallb_forall. intros u Hu.
    rewrite (Hs u) by (right; exact Hu).
    rewrite (Hs t) by (left; reflexivity). apply shape_eqb_refl. }
  rewrite Hall. reflexivity.
Qed.

Lemma valid_hidden_window_inv (outputs : model_output A) (k B T D : nat) :
  valid_hidden_window outputs k B T D = true ->
  1 <= k /\ k <= length (hidden_states outputs) /\ 1 <= B /\ 2 <= T /\ 1 <= D
  /\ forallb (has_shape3 B T D) (window (hidden_states outputs) k) = true.
Proof.
  unfold valid_hidden_window. intros Hv.
  repeat (apply andb_true_iff in Hv; destruct Hv as [Hv ?]).
  repeat match goal with
         | Hle : (_ <=? _) = true |- _ => apply Nat.leb_le in Hle
         end.
  auto 10.
Qed.

Lemma valid_attention_window_inv (outputs : model_output A) (k B H' T : nat) :
  valid_attention_window outputs k B H' T = true ->
  1 <= k /\ k <= length (attentions outputs) /\ 1 <= B /\ 1 <= H' /\ 2 <= T
  /\ forallb (has_shape4 B H' T T) (window (attentions outputs) k) = true.
Proof.
  unfold valid_attention_window. intros Hv.
  repeat (apply andb_true_iff in Hv; destruct Hv as [Hv ?]).
  repeat match goal with
         | Hle : (_ <=? _) = true |- _ => apply Nat.leb_le in Hle
         end.
  auto 10.
Qed.

Lemma window_nonempty {X : Type} (xs : list X) (k : nat) :
  1 <= k -> k <= length xs -> window xs k <> [].
Proof.
  intros H1 H2 E. apply (f_equal (@length X)) in E.
  rewrite window_length in E by assumption. simpl in E. lia.
Qed.

Lemma summed_hidden_states_window (outputs : model_output A) (k B T D : nat) :
  valid_hidden_window outputs k B T D = true ->
  summed_hidden_states outputs (Z.of_nat k)
  = Ok (sum4 (window (hidden_states outputs) k)).
Proof.
  intros Hv. apply valid_hidden_window_inv in Hv.
  destruct Hv as (Hk & Hlen & HB & HT & HD & Hsh).
  unfold summed_hidden_states.
  rewrite last_layers_window by assumption. simpl.
  rewrite (stack_same_shape shape3 [B; T; D]).
  - reflexivity.
  - apply window_nonempty; assumption.
  - intros t Ht. rewrite forallb_forall in Hsh.
    apply has_shape3_shape; auto; lia.
Qed.

(** C4.  On a valid window, step 1 returns a (B, T, D) tensor whose entry
    (b, t, d) is the sum, over the [k] selected layers, of the layers' entries
    (b, t, d): a sum along the layer axis with no division by [k]. *)
Theorem summed_hidden_states_layer_sum
    (outputs : model_output A) (k B T D : nat) :
  valid_hidden_window outputs k B T D = true ->
  exists s : tensor3 A,
    summed_hidden_states outputs (Z.of_nat k) = Ok s
    /\ has_shape3 B T D s = true
    /\ forall b t d, b < B -> t < T -> d < D ->
         get3 s b t d
         = sum1 (map (fun layer => get3 layer b t d)
                     (window (hidden_states outputs) k)).
Proof.
  intros Hv. exists (sum4 (window (hidden_states outputs) k)).
  split; [eapply summed_hidden_states_window; eassumption|].
  apply valid_hidden_window_inv in Hv.
  destruct Hv as (Hk & Hlen & HB & HT & HD & Hsh).
  pose proof (window_nonempty (hidden_states outputs) k Hk Hlen) as Hne.
  split.
  - apply sum4_shape; assumption.
  - intros b t d Hb Ht Hd. eapply sum4_get; eassumption.
Qed.

End Windows.

(** ** Transposition and flattening *)

Lemma transpose_cons {X : Type} (r : list X) (rest : list (list X)) :
  rest <> [] -> transpose (r :: rest) = zip_with cons r (transpose rest).
Proof. destruct rest; [contradiction | reflexivity]. Qed.

Lemma transpose_length {X : Type} (rows : list (list X)) (n : nat) :
  rows <> [] -> (forall r, In r rows -> length r = n) ->
  length (transpose rows) = n.
Proof.
  induction rows as [|r rest IH]; intros Hne Hlen; [contradiction|].
  destruct rest as [|r' rest'].
  - simpl. rewrite length_map. apply Hlen. left; reflexivity.
  - rewrite transpose_cons by discriminate. rewrite zip_with_length.
    rewrite IH; [|discriminate|intros; apply Hlen; right; assumption].
    rewrite (Hlen r) by (left; reflexivity). lia.
Qed.

Lemma transpose_nth {X : Type} (rows : list (list X)) (n b : nat) (d : X) :
  rows <> [] -> (forall r, In r rows -> length r = n) -> b < n ->
  nth b (transpose rows) [] = map (fun r => nth b r d) rows.
Proof.
  induction rows as [|r rest IH]; intros Hne Hlen Hb; [contradiction|].
  destruct rest as [|r' rest'].
  - simpl. rewrite (nth_indep _ [] [d])
      by (rewrite length_map, (Hlen r) by (left; reflexivity); exact Hb).
    exact (map_nth (fun x => [x]) r d b).
  - rewrite transpose_cons by discriminate.
    rewrite (zip_with_nth cons r (transpose (r' :: rest')) d [] []).
    + rewrite IH; [reflexivity|discriminate| |exact Hb].
      intros; apply Hlen; right; assumption.
    + rewrite (Hlen r) by (left; reflexivity). exact Hb.
    + rewrite (transpose_length _ n); [exact Hb|discriminate|].
      intros; apply Hlen; right; assumption.
Qed.

Lemma map_seq_nth {X Y : Type} (f : X -> Y) (xs : list X) (d : X) (n : nat) :
  length xs = n -> map f xs = map (fun i => f (nth i xs d)) (seq 0 n).
Proof.
  intros Hn. rewrite <- (skipn_seq_nth xs d 0 n) at 1 by (simpl; congruence).
  simpl. rewrite map_map. reflexivity.
Qed.

Lemma flat_map_seq_nth {X Y : Type} (f : X -> list Y) (xs : list X) (d : X)
    (n : nat) :
  length xs = n -> flat_map f xs = flat_map (fun i => f (nth i xs d)) (seq 0 n).
Proof.
  intros Hn. rewrite !flat_map_concat_map.
  rewrite (map_seq_nth f xs d n Hn). reflexivity.
Qed.

Lemma flat_map_ext_seq {Y : Type} (f g : nat -> list Y) (n : nat) :
  (forall i, i < n -> f i = g i) -> flat_map f (seq 0 n) = flat_map g (seq 0 n).
Proof.
  intros Hfg. rewrite !flat_map_concat_map. f_equal.
  apply map_ext_in. intros i Hi. apply in_seq in Hi. apply Hfg. lia.
Qed.

Lemma map_ext_seq {Y : Type} (f g : nat -> Y) (n : nat) :
  (forall i, i < n -> f i = g i) -> map f (seq 0 n) = map g (seq 0 n).
Proof.
  intros Hfg. apply map_ext_in. intros i Hi. apply in_seq in Hi. apply Hfg. lia.
Qed.

Lemma map_concat_concat {X Y : Type} (g : X -> Y) (x : list (list (list X))) :
  map g (concat (concat x)) = flat_map (fun layer => flat_map (map g) layer) x.
Proof.
  induction x as [|layer x IH]; simpl; [reflexivity|].
  rewrite concat_app, map_app, IH. f_equal.
  rewrite concat_map, flat_map_concat_map. reflexivity.
Qed.

Lemma concat_nonempty {X : Type} (xss : list (list X)) (n : nat) :
  xss <> [] -> 1 <= n -> (forall xs, In xs xss -> length xs = n) ->
  concat xss <> [].
Proof.
  intros Hne Hn Hlen. destruct xss as [|xs rest]; [contradiction|].
  simpl. specialize (Hlen xs (or_introl eq_refl)).
  destruct xs; simpl in *; [lia | discriminate].
Qed.

Lemma forallb_concat {X : Type} (ok : X -> bool) (xss : list (list X)) :
  forallb (forallb ok) xss = true -> forallb ok (concat xss) = true.
Proof.
  induction xss as [|xs rest IH]; simpl; [reflexivity|].
  intros Hall. apply andb_true_iff in Hall. destruct Hall as [Hxs Hrest].
  rewrite forallb_app, Hxs, IH by assumption. reflexivity.
Qed.

Lemma forallb_impl {X : Type} (p q : X -> bool) (xs : list X) :
  (forall x, p x = true -> q x = true) ->
  forallb p xs = true -> forallb q xs = true.
Proof.
  intros Hpq Hp. rewrite forallb_forall in *. auto.
Qed.

Section Attention.

Context {A : Type} `{Scalar A}.

Lemma has_shape4_rows (k h tq tk : nat) (x : tensor4 A) :
  has_shape4 k h tq tk x = true ->
  forallb (has_shape1 tk) (concat (concat x)) = true.
Proof.
  intros Hx. apply has_shape4_inv in Hx. destruct Hx as [_ Hx].
  apply forallb_concat, forallb_concat.
  revert Hx. apply forallb_impl. intros layer Hl.
  apply has_shape3_inv in Hl. destruct Hl as [_ Hl].
  revert Hl. apply forallb_impl. intros head Hh.
  apply has_shape2_inv in Hh. tauto.
Qed.

Lemma has_shape4_rows_nonempty (k h tq tk : nat) (x : tensor4 A) :
  1 <= k -> 1 <= h -> 1 <= tq -> has_shape4 k h tq tk x = true ->
  concat (concat x) <> [].
Proof.
  intros Hk Hh Htq Hx. apply has_shape4_inv in Hx. destruct Hx as [Lx Hx].
  rewrite forallb_forall in Hx.
  apply concat_nonempty with (n := tq); [|assumption|].
  - apply concat_nonempty with (n := h); [|assumption|].
    + intros E. subst x. simpl in Lx. lia.
    + intros layer Hl. apply Hx, has_shape3_inv in Hl. tauto.
  - intros head Hin. apply in_concat in Hin. destruct Hin as [layer [Hl Hh']].
    apply Hx, has_shape3_inv in Hl. destruct Hl as [_ Hl].
    rewrite forallb_forall in Hl. apply Hl, has_shape2_inv in Hh'. tauto.
Qed.

Lemma has_shape4_count (k h tq tk : nat) (x : tensor4 A) :
  1 <= k -> 1 <= h -> has_shape4 k h tq tk x = true ->
  length x * length (hd [] x) * length (hd [] (hd [] x)) = k * h * tq.
Proof.
  intros Hk Hh Hx. apply has_shape4_inv in Hx. destruct Hx as [Lx Hx].
  destruct x as [|layer x]; simpl in *; [lia|].
  apply andb_true_iff in Hx. destruct Hx as [Hl _].
  apply has_shape3_inv in Hl. destruct Hl as [Ll Hl].
  destruct layer as [|head layer]; simpl in *; [lia|].
  apply andb_true_iff in Hl. destruct Hl as [Hd _].
  apply has_shape2_inv in Hd. destruct Hd as [Ld _].
  rewrite Ld. subst k h. reflexivity.
Qed.

Lemma get1_map (f : A -> A) (v : tensor1 A) (t : nat) :
  t < length v -> get1 (map f v) t = f (get1 v t).
Proof.
  intros Ht. unfold get1.
  rewrite (nth_indep _ zero (f zero)) by (rewrite length_map; exact Ht).
  apply map_nth.
Qed.

Lemma mean012_shape (k h tq tk : nat) (x : tensor4 A) :
  1 <= k -> 1 <= h -> 1 <= tq -> has_shape4 k h tq tk x = true ->
  has_shape1 tk (mean012 x) = true.
Proof.
  intros Hk Hh Htq Hx. unfold mean012, has_shape1. rewrite length_map.
  apply (sum2_shape tk).
  - apply (has_shape4_rows_nonempty k h tq tk); assumption.
  - apply (has_shape4_rows k h tq tk); assumption.
Qed.

(** The mean over the three outer axes, entry by entry. *)
Lemma mean012_get (k h tq tk t : nat) (x : tensor4 A) :
  1 <= k -> 1 <= h -> 1 <= tq -> has_shape4 k h tq tk x = true -> t < tk ->
  get1 (mean012 x) t
  = div (sum1 (flat_map (fun l =>
                 flat_map (fun hh =>
                   map (fun q => get3 (nth l x []) hh q t) (seq 0 tq))
                   (seq 0 h))
                 (seq 0 k)))
        (of_nat (k * h * tq)).
Proof.
  intros Hk Hh Htq Hx Ht. unfold mean012.
  pose proof (has_shape4_rows k h tq tk x Hx) as Hrows.
  pose proof (has_shape4_rows_nonempty k h tq tk x Hk Hh Htq Hx) as Hne.
  rewrite (has_shape4_count k h tq tk x Hk Hh Hx).
  rewrite get1_map
    by (rewrite (has_shape1_length tk) by (apply sum2_shape; assumption);
        exact Ht).
  rewrite (sum2_get tk) by assumption.
  rewrite (map_concat_concat (fun r => get1 r t) x).
  apply has_shape4_inv in Hx. destruct Hx as [Lx Hx].
  rewrite (flat_map_seq_nth _ x [] k Lx).
  do 2 f_equal. apply flat_map_ext_seq. intros l Hl.
  assert (Hlayer : has_shape3 h tq tk (nth l x []) = true)
    by (apply forallb_nth; [assumption | lia]).
  apply has_shape3_inv in Hlayer. destruct Hlayer as [Ll Hlayer].
  rewrite (flat_map_seq_nth _ (nth l x []) [] h Ll).
  apply flat_map_ext_seq. intros i Hi.
  assert (Hhead : has_shape2 tq tk (nth i (nth l x []) []) = true)
    by (apply forallb_nth; [assumption | lia]).
  apply has_shape2_inv in Hhead. destruct Hhead as [Lh _].
  rewrite (map_seq_nth _ (nth i (nth l x []) []) [] tq Lh).
  reflexivity.
Qed.

End Attention.

Section AttentionWindow.

Context {A : Type} `{Scalar A}.

Lemma window_image_shape (k B h T b : nat) (W : list (tensor4 A)) :
  length W = k -> forallb (has_shape4 B h T T) W = true -> b < B ->
  has_shape4 k h T T (map (fun layer => nth b layer []) W) = true.
Proof.
  intros Lw Hw Hb. unfold has_shape4 at 1.
  rewrite length_map, Lw, Nat.eqb_refl. simpl.
  rewrite forallb_forall in *. intros x Hx.
  apply in_map_iff in Hx. destruct Hx as [layer [<- Hl]].
  apply Hw, has_shape4_inv in Hl. destruct Hl as [Ll Hl].
  apply forallb_nth; [assumption | lia].
Qed.

Lemma transpose_window (k B h T b : nat) (W : list (tensor4 A)) :
  1 <= k -> length W = k -> forallb (has_shape4 B h T T) W = true -> b < B ->
  nth b (transpose W) [] = map (fun layer => nth b layer []) W.
Proof.
  intros Hk Lw Hw Hb. apply (transpose_nth W B b []).
  - intros E. subst W. simpl in Lw. lia.
  - intros layer Hl. rewrite forallb_forall in Hw.
    apply Hw, has_shape4_inv in Hl. tauto.
  - exact Hb.
Qed.

Lemma transpose_window_length (k B h T : nat) (W : list (tensor4 A)) :
  1 <= k -> length W = k -> forallb (has_shape4 B h T T) W = true ->
  length (transpose W) = B.
Proof.
  intros Hk Lw Hw. apply transpose_length.
  - intros E. subst W. simpl in Lw. lia.
  - intros layer Hl. rewrite forallb_forall in Hw.
    apply Hw, has_shape4_inv in Hl. tauto.
Qed.

Lemma stacked_attentions_window (outputs : model_output A) (k B h T : nat) :
  valid_attention_window outputs k B h T = true ->
  stacked_attentions outputs (Z.of_nat k)
  = Ok (transpose (window (attentions outputs) k)).
Proof.
  intros Hv. apply valid_attention_window_inv in Hv.
  destruct Hv as (Hk & Hlen & HB & HH & HT & Hsh).
  unfold stacked_attentions.
  rewrite last_layers_window by assumption. simpl.
  rewrite (stack_same_shape shape4 [B; h; T; T]).
  - reflexivity.
  - apply window_nonempty; assumption.
  - intros t Ht. rewrite forallb_forall in Hsh.
    apply has_shape4_shape; auto; lia.
Qed.

Lemma attentions_reduced_shape (k B h T : nat) (W : list (tensor4 A)) :
  1 <= k -> 1 <= h -> 1 <= T -> length W = k ->
  forallb (has_shape4 B h T T) W = true ->
  has_shape2 B T (attentions_reduced (transpose W)) = true.
Proof.
  intros Hk Hh HT Lw Hw. unfold attentions_reduced, has_shape2.
  rewrite length_map, (transpose_window_length k B h T) by assumption.
  rewrite Nat.eqb_refl. simpl.
  apply forallb_forall. intros r Hr. apply in_map_iff in Hr.
  destruct Hr as [x [<- Hx]].
  destruct (In_nth _ _ [] Hx) as [b [Hb Hnth]].
  rewrite (transpose_window_length k B h T) in Hb by assumption.
  rewrite (transpose_window k B h T) in Hnth by assumption. subst x.
  apply (mean012_shape k h T T); try assumption.
  apply (window_image_shape k B); assumption.
Qed.

Lemma attentions_reduced_row (k B h T b : nat) (W : list (tensor4 A)) :
  1 <= k -> length W = k -> forallb (has_shape4 B h T T) W = true -> b < B ->
  nth b (attentions_reduced (transpose W)) []
  = mean012 (map (fun layer => nth b layer []) W).
Proof.
  intros Hk Lw Hw Hb. unfold attentions_reduced.
  rewrite (nth_indep _ [] (mean012 []))
    by (rewrite length_map, (transpose_window_length k B h T); assumption).
  rewrite map_nth. f_equal. apply (transpose_window k B h T); assumption.
Qed.

(** C5.  On a valid attention window, step 2 returns a (B, T) tensor whose
    entry (b, t) is the sum of the attention weights towards key [t] of image
    [b], over every selected layer, head and query position, divided by their
    number [k * H * T]. *)
Theorem attentions_reduced_mean_over_layers_heads_queries
    (outputs : model_output A) (k B h T : nat) :
  valid_attention_window outputs k B h T = true ->
  exists atts : tensor5 A,
    stacked_attentions outputs (Z.of_nat k) = Ok atts
    /\ has_shape2 B T (attentions_reduced atts) = true
    /\ forall b t, b < B -> t < T ->
         get2 (attentions_reduced atts) b t
         = div (sum1 (flat_map (fun l =>
                        flat_map (fun hh =>
                          map (fun q =>
                                 get4 (nth l (window (attentions outputs) k) [])
                                      b hh q t)
                              (seq 0 T))
                          (seq 0 h))
                        (seq 0 k)))
               (of_nat (k * h * T)).
Proof.
  intros Hv. exists (transpose (window (attentions outputs) k)).
  split; [apply (stacked_attentions_window outputs k B h T Hv)|].
  apply valid_attention_window_inv in Hv.
  destruct Hv as (Hk & Hlen & HB & HH & HT & Hsh).
  pose proof (window_length (attentions outputs) k Hlen) as Lw.
  set (W := window (attentions outputs) k) in *.
  split.
  - apply (attentions_reduced_shape k B h T); (assumption || lia).
  - intros b t Hb Ht. unfold get2.
    rewrite (attentions_reduced_row k B h T) by assumption.
    rewrite (mean012_get k h T T);
      [| assumption | assumption | lia
       | apply (window_image_shape k B); assumption | assumption].
    do 2 f_equal. apply flat_map_ext_seq. intros l Hl.
    apply flat_map_ext_seq. intros i Hi. apply map_ext_seq. intros q Hq.
    unfold get4. f_equal.
    rewrite (nth_indep _ [] ((fun layer : tensor4 A => nth b layer []) []))
      by (rewrite length_map; lia).
    apply (map_nth (fun layer : tensor4 A => nth b layer [])).
Qed.

End AttentionWindow.

(** ** Broadcasting *)

Lemma combine_zip_with {X Y Z : Type} (h : X -> Y -> Z) (xs : list X)
    (ys : list Y) :
  map (fun xy => h (fst xy) (snd xy)) (combine xs ys) = zip_with h xs ys.
Proof.
  revert ys. induction xs as [|x xs IH]; intros [|y ys]; simpl; auto.
  f_equal. apply IH.
Qed.

Lemma zip_with_map_r {X Y Z : Type} (h : X -> Y -> Z) (g : X -> Y) (xs : list X) :
  zip_with h xs (map g xs) = map (fun x => h x (g x)) xs.
Proof. induction xs as [|x xs IH]; simpl; [reflexivity | f_equal; exact IH]. Qed.

Lemma broadcast_equal {X Y Z : Type} (f : X -> Y -> result Z)
    (h : X -> Y -> Z) (xs : list X) (ys : list Y) :
  length xs = length ys ->
  (forall xy, In xy (combine xs ys) -> f (fst xy) (snd xy) = Ok (h (fst xy) (snd xy))) ->
  broadcast f xs ys = Ok (zip_with h xs ys).
Proof.
  intros Hlen Hf. unfold broadcast.
  rewrite (proj2 (Nat.eqb_eq _ _) Hlen).
  rewrite (mapM_ok _ (fun xy => h (fst xy) (snd xy))) by exact Hf.
  rewrite combine_zip_with. reflexivity.
Qed.

Lemma broadcast_one_r {X Y Z : Type} (h : X -> Y -> Z) (xs : list X) (y : Y) :
  broadcast (fun x y' => Ok (h x y')) xs [y] = Ok (map (fun x => h x y) xs).
Proof.
  unfold broadcast.
  destruct xs as [|x1 [|x2 xs]]; try reflexivity.
  cbn [length Nat.eqb].
  apply mapM_ok. reflexivity.
Qed.

Lemma broadcast_mismatch {X Y Z : Type} (f : X -> Y -> result Z)
    (xs : list X) (ys : list Y) :
  length xs <> length ys -> length xs <> 1 -> length ys <> 1 ->
  broadcast f xs ys = Raise RuntimeError.
Proof.
  intros Hne Hx Hy. unfold broadcast.
  rewrite (proj2 (Nat.eqb_neq _ _) Hne).
  destruct xs as [|x1 [|x2 xs]], ys as [|y1 [|y2 ys]];
    simpl in *; try reflexivity; congruence.
Qed.

Section Steps345.

Context {A : Type} `{Scalar A}.

Lemma set_column0_rows (reduced : tensor2 A) :
  (forall r, In r reduced -> r <> []) ->
  set_column0 reduced = Ok (map (fun r => zero :: tl r) reduced).
Proof.
  intros Hne. unfold set_column0. apply mapM_ok.
  intros r Hr. specialize (Hne r Hr). destruct r; [contradiction | reflexivity].
Qed.

Lemma div2_rows (zeroed : tensor2 A) :
  div2 zeroed (unsqueeze1 (map sum1 zeroed))
  = Ok (map (fun z => map (fun x => div x (sum1 z)) z) zeroed).
Proof.
  unfold div2, unsqueeze1. rewrite map_map.
  rewrite (broadcast_equal _ (fun z s => map (fun x => div x (hd zero s)) z)).
  - rewrite zip_with_map_r. reflexivity.
  - rewrite length_map. reflexivity.
  - intros [z s] Hin. simpl.
    assert (Hs : s = [sum1 z]).
    { revert Hin. clear. induction zeroed as [|z' rest IH]; simpl; [tauto|].
      intros [E|Hin]; [injection E as <- <-; reflexivity | auto]. }
    subst s. apply broadcast_one_r.
Qed.

(** Lines 94-97 in closed form. *)
Lemma attentions_reweighted_rows (reduced : tensor2 A) :
  (forall r, In r reduced -> r <> []) ->
  attentions_reweighted reduced = Ok (map normalized_row reduced).
Proof.
  intros Hne. unfold attentions_reweighted.
  rewrite set_column0_rows by exact Hne. simpl.
  rewrite div2_rows, map_map. reflexivity.
Qed.

Lemma in_combine_unsqueeze {X : Type} (img : list X) (w : tensor1 A)
    (v : X) (s : tensor1 A) :
  In (v, s) (combine img (map (fun x => [x]) w)) -> exists x, s = [x].
Proof.
  revert img. induction w as [|x w IH]; intros [|v' img]; simpl; try tauto.
  intros [E|Hin]; [injection E as <- <-; eauto | eauto].
Qed.

Lemma mul_rows (img : tensor2 A) (w : tensor1 A) :
  length img = length w ->
  broadcast (broadcast (fun x y => Ok (mul x y))) img (map (fun x => [x]) w)
  = Ok (zip_with scale img w).
Proof.
  intros Hlen.
  rewrite (broadcast_equal _ (fun v s => scale v (hd zero s))).
  - f_equal. clear Hlen. revert w.
    induction img as [|v img IH]; intros [|x w]; simpl; auto.
    f_equal. apply IH.
  - rewrite length_map. exact Hlen.
  - intros [v s] Hin. simpl.
    destruct (in_combine_unsqueeze img w v s Hin) as [x ->].
    apply broadcast_one_r.
Qed.

(** Lines 99-100 in closed form, when the two shapes agree on B and T. *)
Lemma embeddings_rows (hidden : tensor3 A) (weights : tensor2 A) :
  length hidden = length weights ->
  (forall iw, In iw (combine hidden weights) ->
              length (fst iw) = length (snd iw)) ->
  embeddings hidden weights = Ok (zip_with weighted_sum hidden weights).
Proof.
  intros Hlen Hrows. unfold embeddings, mul3, unsqueeze2.
  rewrite (broadcast_equal _ (fun img s => zip_with scale img (map (hd zero) s))).
  - simpl. f_equal. clear. revert weights.
    induction hidden as [|img hidden IH]; intros [|w weights]; simpl; auto.
    f_equal; [|apply IH].
    unfold weighted_sum. do 2 f_equal. rewrite map_map. simpl.
    apply map_id.
  - rewrite length_map. exact Hlen.
  - intros [img s] Hin. simpl.
    assert (Hs : exists w, s = map (fun x => [x]) w /\ In (img, w) (combine hidden weights)).
    { revert Hin. clear. revert weights.
      induction hidden as [|img' hidden IH]; intros [|w weights]; simpl;
        try tauto.
      intros [E|Hin].
      - injection E as <- <-. eauto.
      - destruct (IH weights Hin) as [w' [-> Hw']]. eauto. }
    destruct Hs as [w [-> Hw]].
    rewrite mul_rows by (apply (Hrows (img, w) Hw)).
    rewrite map_map. simpl. rewrite map_id. reflexivity.
Qed.

End Steps345.

(** ** The reducer in closed form *)

Section ReducerClosedForm.

Context {A : Type} `{Scalar A}.

Lemma has_shape2_rows_nonempty (m n : nat) (t : tensor2 A) :
  1 <= n -> has_shape2 m n t = true -> forall r, In r t -> r <> [].
Proof.
  intros Hn Ht r Hr E. apply has_shape2_inv in Ht. destruct Ht as [_ Ht].
  rewrite forallb_forall in Ht. apply Ht, has_shape1_length in Hr.
  subst r. simpl in Hr. lia.
Qed.

Lemma normalized_row_length (n : nat) (r : tensor1 A) :
  1 <= n -> length r = n -> length (normalized_row r) = n.
Proof.
  intros Hn Hr. unfold normalized_row. rewrite length_map.
  destruct r; simpl in *; lia.
Qed.

Lemma normalized_rows_shape (m n : nat) (t : tensor2 A) :
  1 <= n -> has_shape2 m n t = true ->
  has_shape2 m n (map normalized_row t) = true.
Proof.
  intros Hn Ht. apply has_shape2_inv in Ht. destruct Ht as [Lt Ht].
  unfold has_shape2. rewrite length_map, Lt, Nat.eqb_refl. simpl.
  rewrite forallb_forall in *. intros r Hr. apply in_map_iff in Hr.
  destruct Hr as [r' [<- Hr']]. apply Nat.eqb_eq.
  apply normalized_row_length; [exact Hn|].
  apply has_shape1_length, Ht, Hr'.
Qed.

Lemma embeddings_shapes (B T D : nat) (hidden : tensor3 A) (weights : tensor2 A) :
  has_shape3 B T D hidden = true -> has_shape2 B T weights = true ->
  embeddings hidden weights = Ok (zip_with weighted_sum hidden weights).
Proof.
  intros Hh Hw. apply has_shape3_inv in Hh. apply has_shape2_inv in Hw.
  destruct Hh as [Lh Hh], Hw as [Lw Hw]. rewrite forallb_forall in Hh, Hw.
  apply embeddings_rows; [congruence|].
  intros [img w] Hin. simpl.
  pose proof (in_combine_l _ _ _ _ Hin) as Hi.
  pose proof (in_combine_r _ _ _ _ Hin) as Hr.
  apply Hh, has_shape2_inv in Hi. apply Hw, has_shape1_length in Hr.
  destruct Hi as [Li _]. congruence.
Qed.

Lemma reducer_closed_form (outputs : model_output A) (k B h T D : nat) :
  valid_hidden_window outputs k B T D = true ->
  valid_attention_window outputs k B h T = true ->
  reducer outputs (Z.of_nat k)
  = Ok (zip_with weighted_sum
          (sum4 (window (hidden_states outputs) k))
          (map normalized_row
             (attentions_reduced (transpose (window (attentions outputs) k))))).
Proof.
  intros Hh Ha. unfold reducer.
  rewrite (summed_hidden_states_window outputs k B T D Hh). simpl.
  rewrite (stacked_attentions_window outputs k B h T Ha). simpl.
  apply valid_hidden_window_inv in Hh. apply valid_attention_window_inv in Ha.
  destruct Hh as (Hk & Hlen & HB & HT & HD & Hsh).
  destruct Ha as (_ & Hlen' & _ & HH & _ & Hsa).
  pose proof (window_length (attentions outputs) k Hlen') as Lw.
  assert (Hred : has_shape2 B T (attentions_reduced
                   (transpose (window (attentions outputs) k))) = true)
    by (apply (attentions_reduced_shape k B h T); (assumption || lia)).
  rewrite attentions_reweighted_rows
    by (apply (has_shape2_rows_nonempty B T); [lia | exact Hred]).
  simpl. apply (embeddings_shapes B T D).
  - apply sum4_shape; [apply window_nonempty; assumption | assumption].
  - apply normalized_rows_shape; [lia | exact Hred].
Qed.

End ReducerClosedForm.

(** ** Exact arithmetic: the weights of one image *)

Section ExactWeights.

#[local] Open Scope Qc_scope.

Lemma Qc_fold_div (z : tensor1 Qc) (s a : Qc) :
  fold_left Qcplus (map (fun x => x / s) z) (a / s)
  = fold_left Qcplus z a / s.
Proof.
  revert a. induction z as [|x z IH]; intros a; simpl; [reflexivity|].
  rewrite <- IH. f_equal. unfold Qcdiv. ring.
Qed.

Lemma sum1_div (z : tensor1 Qc) (s : Qc) :
  sum1 (map (fun x => div x s) z) = div (sum1 z) s.
Proof.
  unfold sum1. cbn [add div zero Scalar_Qc].
  rewrite <- Qc_fold_div. f_equal. unfold Qcdiv. ring.
Qed.

Lemma normalized_row_sum (r : tensor1 Qc) :
  sum1 (zero :: tl r) <> zero -> sum1 (normalized_row r) = 1.
Proof.
  intros Hs. unfold normalized_row. cbv zeta. rewrite sum1_div.
  cbn [div Scalar_Qc]. unfold Qcdiv. apply Qcmult_inv_r. exact Hs.
Qed.

Lemma normalized_row_class (r : tensor1 Qc) :
  get1 (normalized_row r) 0%nat = zero.
Proof.
  unfold normalized_row, get1. cbn [map nth zero div Scalar_Qc].
  unfold Qcdiv. ring.
Qed.

End ExactWeights.

Section ClassToken.

Lemma replace_class_token_shape {A : Type} `{Scalar A} (B T D : nat)
    (hidden : tensor3 A) (c : tensor2 A) :
  1 <= T -> has_shape3 B T D hidden = true -> has_shape2 B D c = true ->
  has_shape3 B T D (replace_class_token hidden c) = true.
Proof.
  intros HT Hh Hc. apply has_shape3_inv in Hh. apply has_shape2_inv in Hc.
  destruct Hh as [Lh Hh], Hc as [Lc Hc].
  unfold has_shape3, replace_class_token.
  rewrite zip_with_length, Lh, Lc, Nat.min_id, Nat.eqb_refl. simpl.
  clear Lh Lc. revert c Hc.
  induction hidden as [|img hidden IH]; intros [|v c] Hc; simpl; auto.
  simpl in Hh, Hc. apply andb_true_iff in Hh, Hc.
  destruct Hh as [Hi Hh], Hc as [Hv Hc].
  rewrite IH by assumption. rewrite andb_true_r.
  apply has_shape2_inv in Hi. destruct Hi as [Li Hi].
  destruct img as [|v0 img]; simpl in *; [lia|].
  apply andb_true_iff in Hi. destruct Hi as [_ Hi].
  unfold has_shape2. cbn [tl length forallb].
  rewrite Li, Nat.eqb_refl, Hv, Hi. reflexivity.
Qed.

Lemma div_zero_by_number (x s : float32) :
  is_zero x = true -> is_zero s = false -> is_nan s = false ->
  is_zero (div x s) = true.
Proof.
  destruct x, s; simpl; intros Ex Es En; (discriminate || reflexivity).
Qed.

Lemma add_zero_mul_finite (a x : float32) :
  is_finite a = true -> is_zero x = true -> add zero (mul a x) = zero.
Proof.
  destruct a as [sa| | |sa ma ea], x as [sx| | |]; simpl; intros Ea Ex;
    try discriminate; destruct (xorb sa sx); reflexivity.
Qed.

Lemma zero_weight_finite_row (v : tensor1 float32) (x : float32) :
  forallb is_finite v = true -> is_zero x = true ->
  add1 (zeros1 (scale v x)) (scale v x) = map (fun _ => zero) v.
Proof.
  intros Hv Hx. unfold add1, zeros1, scale.
  induction v as [|a v IH]; cbn [map zip_with]; [reflexivity|].
  cbn [forallb] in Hv. apply andb_true_iff in Hv. destruct Hv as [Ha Hv].
  rewrite add_zero_mul_finite by assumption. f_equal. apply IH, Hv.
Qed.

(** An image whose first weight is a zero: a first token vector of finite
    numbers only matters through its length. *)
Lemma weighted_sum_finite_class_token (v v' : tensor1 float32)
    (rest : tensor2 float32) (x : float32) (w : tensor1 float32) :
  forallb is_finite v = true -> forallb is_finite v' = true ->
  length v = length v' -> is_zero x = true ->
  weighted_sum (v' :: rest) (x :: w) = weighted_sum (v :: rest) (x :: w).
Proof.
  intros Hv Hv' Hlen Hx. unfold weighted_sum, sum2.
  cbn [zip_with hd fold_left].
  rewrite !zero_weight_finite_row by assumption. f_equal.
  clear Hv Hv'. revert v' Hlen.
  induction v as [|a v IH]; intros [|a' v'] Hlen;
    simpl in *; try discriminate; [reflexivity|].
  f_equal. apply IH. congruence.
Qed.

Lemma exact_weights (B T b : nat) (reduced : tensor2 Qc) :
  1 <= T -> has_shape2 B T reduced = true -> b < B ->
  sum1 (zero :: tl (nth b reduced [])) <> zero ->
  attentions_reweighted reduced = Ok (map normalized_row reduced)
  /\ get2 (map normalized_row reduced) b 0 = zero
  /\ sum1 (nth b (map normalized_row reduced) []) = Q2Qc 1.
Proof.
  intros HT Hr Hb Hs.
  assert (Hrow : nth b (map normalized_row reduced) []
                 = normalized_row (nth b reduced [])).
  { rewrite (nth_indep _ [] (normalized_row []))
      by (rewrite length_map; apply has_shape2_inv in Hr; lia).
    apply map_nth. }
  split; [|split].
  - apply attentions_reweighted_rows.
    apply (has_shape2_rows_nonempty B T); assumption.
  - unfold get2. rewrite Hrow. apply normalized_row_class.
  - rewrite Hrow. apply normalized_row_sum. exact Hs.
Qed.


End ClassToken.



(** ** The concrete scenario *)

Lemma Qc_eqb_eq (x y : Qc) : Qc_eqb x y = true -> x = y.
Proof.
  unfold Qc_eqb. intros E. apply Qc_is_canon, Qeq_bool_eq, E.
Qed.

Lemma row_eqb_eq (u v : tensor1 Qc) : row_eqb u v = true -> u = v.
Proof.
  revert v. induction u as [|x u IH]; intros [|y v]; simpl;
    try discriminate; [reflexivity|].
  intros E. apply andb_true_iff in E. destruct E as [Exy Euv].
  f_equal; [apply Qc_eqb_eq, Exy | apply IH, Euv].
Qed.

Lemma nth_zip_with_weighted_sum {A : Type} `{Scalar A} (B T D b : nat)
    (hidden : tensor3 A) (weights : tensor2 A) :
  has_shape3 B T D hidden = true -> has_shape2 B T weights = true -> b < B ->
  nth b (zip_with weighted_sum hidden weights) []
  = weighted_sum (nth b hidden []) (nth b weights []).
Proof.
  intros Hh Hw Hb. apply has_shape3_inv in Hh. apply has_shape2_inv in Hw.
  apply zip_with_nth; lia.
Qed.

Lemma nth_map_normalized_row {A : Type} `{Scalar A} (b : nat) (t : tensor2 A) :
  b < length t -> nth b (map normalized_row t) [] = normalized_row (nth b t []).
Proof.
  intros Hb. rewrite (nth_indep _ [] (normalized_row []))
    by (rewrite length_map; exact Hb).
  apply map_nth.
Qed.

Section Stages.

Context {A : Type} `{Scalar A}.

Lemma scale_length (v : tensor1 A) (x : A) : length (scale v x) = length v.
Proof. unfold scale. apply length_map. Qed.

Lemma weighted_sum_shape (T D : nat) (img : tensor2 A) (w : tensor1 A) :
  1 <= T -> has_shape2 T D img = true -> has_shape1 T w = true ->
  has_shape1 D (weighted_sum img w) = true.
Proof.
  intros HT Hi Hw. apply has_shape2_inv in Hi. destruct Hi as [Li Hi].
  apply has_shape1_length in Hw. unfold weighted_sum.
  apply sum2_shape.
  - intros E. apply (f_equal (@length _)) in E.
    rewrite zip_with_length in E. simpl in E. lia.
  - clear Li Hw. revert w.
    induction img as [|v img IH]; intros [|x w]; simpl; auto.
    simpl in Hi. apply andb_true_iff in Hi. destruct Hi as [Hv Hi].
    rewrite IH by assumption. rewrite andb_true_r.
    unfold has_shape1 in *. rewrite scale_length. exact Hv.
Qed.

Lemma weighted_sums_shape (B T D : nat) (hidden : tensor3 A)
    (weights : tensor2 A) :
  1 <= T -> has_shape3 B T D hidden = true -> has_shape2 B T weights = true ->
  has_shape2 B D (zip_with weighted_sum hidden weights) = true.
Proof.
  intros HT Hh Hw. apply has_shape3_inv in Hh. apply has_shape2_inv in Hw.
  destruct Hh as [Lh Hh], Hw as [Lw Hw].
  unfold has_shape2. rewrite zip_with_length, Lh, Lw, Nat.min_id, Nat.eqb_refl.
  simpl. clear Lh Lw. revert weights Hw.
  induction hidden as [|img hidden IH]; intros [|w weights] Hw; simpl; auto.
  simpl in Hh, Hw. apply andb_true_iff in Hh, Hw.
  destruct Hh as [Hi Hh], Hw as [Hr Hw].
  rewrite IH by assumption. rewrite andb_true_r.
  apply (weighted_sum_shape T); assumption.
Qed.

(** On valid windows every stage returns, with the expected shape. *)
Lemma reducer_stages (outputs : model_output A) (k B h T D : nat) :
  valid_hidden_window outputs k B T D = true ->
  valid_attention_window outputs k B h T = true ->
  exists (s : tensor3 A) (atts : tensor5 A),
    summed_hidden_states outputs (Z.of_nat k) = Ok s
    /\ has_shape3 B T D s = true
    /\ stacked_attentions outputs (Z.of_nat k) = Ok atts
    /\ atts = transpose (window (attentions outputs) k)
    /\ has_shape2 B T (attentions_reduced atts) = true
    /\ attentions_reweighted (attentions_reduced atts)
       = Ok (map normalized_row (attentions_reduced atts))
    /\ has_shape2 B T (map normalized_row (attentions_reduced atts)) = true
    /\ reducer outputs (Z.of_nat k)
       = Ok (zip_with weighted_sum s
               (map normalized_row (attentions_reduced atts)))
    /\ has_shape2 B D (zip_with weighted_sum s
                         (map normalized_row (attentions_reduced atts))) = true.
Proof.
  intros Hh Ha.
  exists (sum4 (window (hidden_states outputs) k)),
         (transpose (window (attentions outputs) k)).
  pose proof (reducer_closed_form outputs k B h T D Hh Ha) as Hred.
  pose proof (summed_hidden_states_window outputs k B T D Hh) as Hsum.
  pose proof (stacked_attentions_window outputs k B h T Ha) as Hatt.
  apply valid_hidden_window_inv in Hh. apply valid_attention_window_inv in Ha.
  destruct Hh as (Hk & Hlen & HB & HT & HD & Hsh).
  destruct Ha as (_ & Hlen' & _ & HH & _ & Hsa).
  pose proof (window_length (attentions outputs) k Hlen') as Lw.
  assert (Hs : has_shape3 B T D (sum4 (window (hidden_states outputs) k)) = true)
    by (apply sum4_shape; [apply window_nonempty; assumption | assumption]).
  assert (Hr : has_shape2 B T (attentions_reduced
                 (transpose (window (attentions outputs) k))) = true)
    by (apply (attentions_reduced_shape k B h T); (assumption || lia)).
  assert (Hw : has_shape2 B T (map normalized_row (attentions_reduced
                 (transpose (window (attentions outputs) k)))) = true)
    by (apply normalized_rows_shape; [lia | exact Hr]).
  repeat split; try assumption.
  - apply attentions_reweighted_rows.
    apply (has_shape2_rows_nonempty B T); [lia | exact Hr].
  - apply (weighted_sums_shape B T D); (assumption || lia).
Qed.

End Stages.

(** C1.  With B = 2, T = 3, D = 4, k = 1, H = 1, summed hidden-state rows
    [[1,1,1,1],[2,0,0,0],[0,2,0,0]] for image 0 and averaged attention
    [0.5, 0.3, 0.2] for its keys, the weights of image 0 become
    [0, 0.6, 0.4] and its embedding is [1.2, 0.8, 0, 0]. *)
Theorem reducer_concrete_scenario
    (outputs : model_output Qc) (s : tensor3 Qc) (atts : tensor5 Qc) :
  valid_hidden_window outputs 1 2 3 4 = true ->
  valid_attention_window outputs 1 2 1 3 = true ->
  summed_hidden_states outputs 1 = Ok s ->
  nth 0 s [] = scenario_image0 ->
  stacked_attentions outputs 1 = Ok atts ->
  nth 0 (attentions_reduced atts) [] = [frac 1 2; frac 3 10; frac 1 5] ->
  exists w e : tensor2 Qc,
    attentions_reweighted (attentions_reduced atts) = Ok w
    /\ nth 0 w [] = [frac 0 1; frac 3 5; frac 2 5]
    /\ reducer outputs 1 = Ok e
    /\ has_shape2 2 4 e = true
    /\ nth 0 e [] = [frac 6 5; frac 4 5; frac 0 1; frac 0 1].
Proof.
  intros Hh Ha Hs Hs0 Hatts Hred.
  destruct (reducer_stages outputs 1 2 1 3 4 Hh Ha)
    as (s' & atts' & Es & Hshape & Ea & _ & Hr & Ew & Hw & Ee & He).
  change (Z.of_nat 1) with 1%Z in Es, Ea, Ee.
  rewrite Es in Hs. injection Hs as ->.
  rewrite Ea in Hatts. injection Hatts as ->.
  exists (map normalized_row (attentions_reduced atts)),
         (zip_with weighted_sum s (map normalized_row (attentions_reduced atts))).
  assert (Hrow : nth 0 (map normalized_row (attentions_reduced atts)) []
                 = [frac 0 1; frac 3 5; frac 2 5]).
  { rewrite nth_map_normalized_row
      by (apply has_shape2_inv in Hr; destruct Hr as [-> _]; lia).
    rewrite Hred. apply row_eqb_eq. vm_compute. reflexivity. }
  repeat split; try assumption.
  rewrite (nth_zip_with_weighted_sum 2 3 4) by (assumption || lia).
  rewrite Hs0, Hrow. apply row_eqb_eq. vm_compute. reflexivity.
Qed.

Lemma reducer_concrete_scenario_witness :
  exists w e : tensor2 Qc,
    attentions_reweighted
      (attentions_reduced (transpose (attentions scenario_outputs))) = Ok w
    /\ nth 0 w [] = [frac 0 1; frac 3 5; frac 2 5]
    /\ reducer scenario_outputs 1 = Ok e
    /\ has_shape2 2 4 e = true
    /\ nth 0 e [] = [frac 6 5; frac 4 5; frac 0 1; frac 0 1].
Proof.
  apply (reducer_concrete_scenario scenario_outputs
           (sum4 (hidden_states scenario_outputs))
           (transpose (attentions scenario_outputs))).
  - reflexivity.
  - reflexivity.
  - reflexivity.
  - reflexivity.
  - reflexivity.
  - apply row_eqb_eq. vm_compute. reflexivity.
Defined.

(** ** The statements above at the concrete scenario *)

Lemma summed_hidden_states_layer_sum_witness :
  exists s : tensor3 Qc,
    summed_hidden_states deep_outputs (Z.of_nat 2) = Ok s
    /\ has_shape3 2 3 4 s = true
    /\ forall b t d, b < 2 -> t < 3 -> d < 4 ->
         get3 s b t d
         = sum1 (map (fun layer => get3 layer b t d)
                     (window (hidden_states deep_outputs) 2)).
Proof.
  apply (summed_hidden_states_layer_sum deep_outputs 2 2 3 4).
  reflexivity.
Defined.

Lemma attentions_reduced_mean_witness :
  exists atts : tensor5 Qc,
    stacked_attentions deep_outputs (Z.of_nat 2) = Ok atts
    /\ has_shape2 2 3 (attentions_reduced atts) = true
    /\ forall b t, b < 2 -> t < 3 ->
         get2 (attentions_reduced atts) b t
         = div (sum1 (flat_map (fun l =>
                        flat_map (fun hh =>
                          map (fun q =>
                                 get4 (nth l (window (attentions deep_outputs) 2) [])
                                      b hh q t)
                              (seq 0 3))
                          (seq 0 2))
                        (seq 0 2)))
               (of_nat (2 * 2 * 3)).
Proof.
  apply (attentions_reduced_mean_over_layers_heads_queries
           deep_outputs 2 2 2 3).
  reflexivity.
Defined.

(** ** IEEE arithmetic: a row that is zero after the class token is zeroed *)

Section Degenerate.

Lemma add_nan_r (x y : float32) : is_nan y = true -> is_nan (add x y) = true.
Proof. destruct x, y; simpl; intros E; (discriminate || reflexivity). Qed.

Lemma mul_nan_r (x y : float32) : is_nan y = true -> is_nan (mul x y) = true.
Proof. destruct x, y; simpl; intros E; (discriminate || reflexivity). Qed.

Lemma add_zero_zero (x y : float32) :
  is_zero x = true -> is_zero y = true -> is_zero (add x y) = true.
Proof.
  destruct x as [sx| | |], y as [sy| | |]; simpl; intros Ex Ey;
    try discriminate. destruct sx, sy; reflexivity.
Qed.

Lemma div_zero_zero (x y : float32) :
  is_zero x = true -> is_zero y = true -> is_nan (div x y) = true.
Proof.
  destruct x, y; simpl; intros Ex Ey; (discriminate || reflexivity).
Qed.

Lemma sum1_zeros (z : tensor1 float32) (acc : float32) :
  is_zero acc = true -> forallb is_zero z = true ->
  is_zero (fold_left add z acc) = true.
Proof.
  revert acc. induction z as [|x z IH]; intros acc Hacc Hz; simpl; auto.
  simpl in Hz. apply andb_true_iff in Hz. destruct Hz as [Hx Hz].
  apply IH; [apply add_zero_zero; assumption | exact Hz].
Qed.

Lemma div_by_zero_row (z : tensor1 float32) (s : float32) :
  is_zero s = true -> forallb is_zero z = true ->
  forallb is_nan (map (fun x => div x s) z) = true.
Proof.
  intros Hs. induction z as [|x z IH]; cbn [map forallb]; [reflexivity|].
  intros Hz. apply andb_true_iff in Hz. destruct Hz as [Hx Hz].
  rewrite div_zero_zero by assumption. apply IH, Hz.
Qed.

(** Steps 3 and 4 on such a row: 0 / 0 at every position. *)
Lemma normalized_row_nan (r : tensor1 float32) :
  forallb is_zero (tl r) = true -> forallb is_nan (normalized_row r) = true.
Proof.
  intros Hr. unfold normalized_row. cbv zeta.
  assert (Hz : forallb is_zero (zero :: tl r) = true) by (simpl; exact Hr).
  apply div_by_zero_row; [|exact Hz].
  apply sum1_zeros; [reflexivity | exact Hz].
Qed.

Lemma add1_nan_row (n : nat) (acc v : tensor1 float32) :
  has_shape1 n acc = true -> nan_row n v = true ->
  nan_row n (add1 acc v) = true.
Proof.
  unfold has_shape1, nan_row, add1. intros Hacc Hv.
  apply Nat.eqb_eq in Hacc. apply andb_true_iff in Hv. destruct Hv as [Lv Hv].
  apply Nat.eqb_eq in Lv.
  apply andb_true_iff. split.
  - apply Nat.eqb_eq. rewrite zip_with_length. lia.
  - assert (Hlen : length acc = length v) by congruence.
    clear Hacc Lv. revert acc Hlen.
    induction v as [|y v IH]; intros [|x acc] Hlen; try discriminate;
      [reflexivity|].
    cbn [forallb] in Hv. apply andb_true_iff in Hv. destruct Hv as [Hy Hv].
    cbn [zip_with forallb]. rewrite add_nan_r by exact Hy.
    apply IH; [exact Hv | simpl in Hlen; congruence].
Qed.

Lemma nan_row_shape (n : nat) (v : tensor1 float32) :
  nan_row n v = true -> has_shape1 n v = true.
Proof. unfold nan_row. intros Hv. apply andb_true_iff in Hv. tauto. Qed.

Lemma fold_add1_nan_rows (n : nat) (rows : tensor2 float32)
    (acc : tensor1 float32) :
  rows <> [] -> forallb (nan_row n) rows = true -> has_shape1 n acc = true ->
  nan_row n (fold_left add1 rows acc) = true.
Proof.
  revert acc. induction rows as [|v rows IH]; intros acc Hne Hrows Hacc;
    [contradiction|].
  simpl in Hrows. apply andb_true_iff in Hrows. destruct Hrows as [Hv Hrows].
  simpl. pose proof (add1_nan_row n acc v Hacc Hv) as Hstep.
  destruct rows as [|v' rows]; [exact Hstep|].
  apply IH; [discriminate | exact Hrows | apply nan_row_shape, Hstep].
Qed.

(** Step 5 with weights that are all NaN. *)
Lemma weighted_sum_nan (T D : nat) (img : tensor2 float32)
    (w : tensor1 float32) :
  1 <= T -> has_shape2 T D img = true -> has_shape1 T w = true ->
  forallb is_nan w = true ->
  forallb is_nan (weighted_sum img w) = true.
Proof.
  intros HT Hi Hw Hnan. apply has_shape2_inv in Hi. destruct Hi as [Li Hi].
  apply has_shape1_length in Hw.
  assert (Hrows : forallb (nan_row D) (zip_with scale img w) = true).
  { clear Li Hw HT. revert w Hnan.
    induction img as [|v img IH]; intros [|x w] Hnan; simpl; auto.
    simpl in Hi, Hnan. apply andb_true_iff in Hi, Hnan.
    destruct Hi as [Hv Hi], Hnan as [Hx Hnan].
    rewrite IH by assumption. rewrite andb_true_r.
    unfold nan_row. rewrite scale_length.
    unfold has_shape1 in Hv. rewrite Hv. cbn [andb].
    unfold scale. apply forallb_forall. intros y Hy.
    apply in_map_iff in Hy. destruct Hy as [a [<- _]].
    apply mul_nan_r, Hx. }
  assert (Hne : zip_with scale img w <> []).
  { intros E. apply (f_equal (@length _)) in E.
    rewrite zip_with_length in E. simpl in E. lia. }
  unfold weighted_sum, sum2.
  assert (Hres : nan_row D (fold_left add1 (zip_with scale img w)
                              (zeros1 (hd [] (zip_with scale img w)))) = true).
  { apply fold_add1_nan_rows; [exact Hne | exact Hrows |].
    apply has_shape1_zeros.
    destruct (zip_with scale img w) as [|r rows]; [contradiction|].
    simpl in Hrows. apply andb_true_iff in Hrows.
    apply nan_row_shape. simpl. tauto. }
  unfold nan_row in Hres. apply andb_true_iff in Hres. tauto.
Qed.

(** C8.  When the importance row of image [b] is zero at every patch token
    (so that the normalization divides 0 by 0), the reducer raises nothing:
    it returns a (B, D) array whose row [b] is NaN at every position. *)
Theorem degenerate_row_gives_nan
    (outputs : model_output float32) (k B h T D b : nat)
    (atts : tensor5 float32) :
  valid_hidden_window outputs k B T D = true ->
  valid_attention_window outputs k B h T = true ->
  stacked_attentions outputs (Z.of_nat k) = Ok atts ->
  b < B ->
  forallb is_zero (tl (nth b (attentions_reduced atts) [])) = true ->
  exists e : tensor2 float32,
    reducer outputs (Z.of_nat k) = Ok e
    /\ has_shape2 B D e = true
    /\ forallb is_nan (nth b e []) = true.
Proof.
  intros Hh Ha Hatts Hb Hzero.
  destruct (reducer_stages outputs k B h T D Hh Ha)
    as (s & atts' & Es & Hs & Ea & _ & Hr & Ew & Hw & Ee & He).
  rewrite Ea in Hatts. injection Hatts as ->.
  exists (zip_with weighted_sum s (map normalized_row (attentions_reduced atts))).
  split; [exact Ee|]. split; [exact He|].
  apply valid_hidden_window_inv in Hh.
  destruct Hh as (_ & _ & _ & HT & _ & _).
  rewrite (nth_zip_with_weighted_sum B T D) by assumption.
  pose proof Hs as Hs'. pose proof Hw as Hw'.
  apply has_shape3_inv in Hs'. apply has_shape2_inv in Hw'.
  destruct Hs' as [Ls Fs], Hw' as [Lw Fw].
  apply (weighted_sum_nan T D).
  - lia.
  - apply forallb_nth; [exact Fs | lia].
  - apply forallb_nth; [exact Fw | lia].
  - rewrite nth_map_normalized_row
      by (apply has_shape2_inv in Hr; destruct Hr as [-> _]; exact Hb).
    apply normalized_row_nan, Hzero.
Qed.

Lemma degenerate_row_gives_nan_witness :
  exists e : tensor2 float32,
    reducer degenerate_outputs (Z.of_nat 1) = Ok e
    /\ has_shape2 2 2 e = true
    /\ forallb is_nan (nth 1 e []) = true.
Proof.
  apply (degenerate_row_gives_nan degenerate_outputs 1 2 1 3 2 1
           (transpose (attentions degenerate_outputs)));
    (reflexivity || lia).
Defined.

End Degenerate.

(** ** Windows that disagree on their sizes *)

Lemma combine_nonempty {X Y : Type} (xs : list X) (ys : list Y) :
  xs <> [] -> ys <> [] -> combine xs ys <> [].
Proof. destruct xs, ys; simpl; congruence. Qed.

Lemma broadcast_all_raise {X Y Z : Type} (f : X -> Y -> result Z)
    (xs : list X) (ys : list Y) :
  xs <> [] -> ys <> [] ->
  (forall x y, In x xs -> In y ys -> f x y = Raise RuntimeError) ->
  broadcast f xs ys = Raise RuntimeError.
Proof.
  intros Hx Hy Hf. unfold broadcast.
  destruct (length xs =? length ys).
  - apply mapM_raise; [apply combine_nonempty; assumption|].
    intros [x y] Hin. simpl.
    apply Hf; [eapply in_combine_l | eapply in_combine_r]; eassumption.
  - destruct xs as [|x1 [|x2 xs]]; [contradiction| |].
    + apply mapM_raise; [assumption|].
      intros y Hin. apply Hf; [left; reflexivity | exact Hin].
    + destruct ys as [|y1 [|y2 ys]]; [contradiction| |reflexivity].
      apply mapM_raise; [discriminate|].
      intros x Hin. apply Hf; [exact Hin | left; reflexivity].
Qed.

Section Mismatch.

Context {A : Type} `{Scalar A}.

Lemma mul3_token_mismatch (B B' T T' D : nat) (hidden : tensor3 A)
    (weights : tensor2 A) :
  1 <= B -> 1 <= B' -> T <> T' -> T <> 1 -> T' <> 1 ->
  has_shape3 B T D hidden = true -> has_shape2 B' T' weights = true ->
  mul3 hidden (unsqueeze2 weights) = Raise RuntimeError.
Proof.
  intros HB HB' HT HT1 HT1' Hh Hw.
  apply has_shape3_inv in Hh. apply has_shape2_inv in Hw.
  destruct Hh as [Lh Hh], Hw as [Lw Hw]. rewrite forallb_forall in Hh, Hw.
  unfold mul3, unsqueeze2. apply broadcast_all_raise.
  - intros E. subst hidden. simpl in Lh. lia.
  - intros E. apply (f_equal (@length _)) in E.
    rewrite length_map in E. simpl in E. lia.
  - intros img wr Hi Hr. apply in_map_iff in Hr. destruct Hr as [r [<- Hr]].
    apply Hh, has_shape2_inv in Hi. apply Hw, has_shape1_length in Hr.
    destruct Hi as [Li _].
    apply broadcast_mismatch; rewrite ?length_map; lia.
Qed.

Lemma mul3_batch_mismatch (B B' T T' D : nat) (hidden : tensor3 A)
    (weights : tensor2 A) :
  B <> B' -> B <> 1 -> B' <> 1 ->
  has_shape3 B T D hidden = true -> has_shape2 B' T' weights = true ->
  mul3 hidden (unsqueeze2 weights) = Raise RuntimeError.
Proof.
  intros HB HB1 HB1' Hh Hw.
  apply has_shape3_inv in Hh. apply has_shape2_inv in Hw.
  destruct Hh as [Lh _], Hw as [Lw _].
  unfold mul3, unsqueeze2. apply broadcast_mismatch; rewrite ?length_map; lia.
Qed.

(** C7, as the code has it.  There is no shape check of its own in the
    reducer; what raises is the element-wise product of line 99.  On windows
    that disagree on the token count, or on the batch size with neither batch
    size equal to 1, that product raises [RuntimeError]. *)
Theorem shape_mismatch_raises_unless_broadcastable
    (outputs : model_output A) (k B B' h T T' D : nat) :
  valid_hidden_window outputs k B T D = true ->
  valid_attention_window outputs k B' h T' = true ->
  T <> T' \/ (B <> B' /\ B <> 1 /\ B' <> 1) ->
  reducer outputs (Z.of_nat k) = Raise RuntimeError.
Proof.
  intros Hh Ha Hmis. unfold reducer.
  rewrite (summed_hidden_states_window outputs k B T D Hh).
  rewrite (stacked_attentions_window outputs k B' h T' Ha).
  cbn [bind].
  apply valid_hidden_window_inv in Hh. apply valid_attention_window_inv in Ha.
  destruct Hh as (Hk & Hlen & HB & HT & HD & Hsh).
  destruct Ha as (_ & Hlen' & HB' & HH & HT' & Hsa).
  pose proof (window_length (attentions outputs) k Hlen') as Lw.
  assert (Hs : has_shape3 B T D (sum4 (window (hidden_states outputs) k)) = true)
    by (apply sum4_shape; [apply window_nonempty; assumption | assumption]).
  assert (Hr : has_shape2 B' T' (attentions_reduced
                 (transpose (window (attentions outputs) k))) = true)
    by (apply (attentions_reduced_shape k B' h T'); (assumption || lia)).
  rewrite attentions_reweighted_rows
    by (apply (has_shape2_rows_nonempty B' T'); [lia | exact Hr]).
  cbn [bind]. unfold embeddings.
  assert (Hw : has_shape2 B' T' (map normalized_row (attentions_reduced
                 (transpose (window (attentions outputs) k)))) = true)
    by (apply normalized_rows_shape; [lia | exact Hr]).
  destruct Hmis as [Htok | (Hb & Hb1 & Hb1')].
  - rewrite (mul3_token_mismatch B B' T T' D); (assumption || lia || reflexivity).
  - rewrite (mul3_batch_mismatch B B' T T' D); (assumption || reflexivity).
Qed.

End Mismatch.

Lemma shape_mismatch_raises_witness :
  reducer incompatible_outputs (Z.of_nat 1) = Raise RuntimeError.
Proof.
  apply (shape_mismatch_raises_unless_broadcastable
           incompatible_outputs 1 2 2 1 3 2 2).
  - reflexivity.
  - reflexivity.
  - left. lia.
Defined.

(** C7, as stated, fails: hidden states for two images and attentions for
    one are multiplied with the single weight row repeated, and a result
    comes back. *)
Lemma shape_mismatch_broadcast_silently :
  valid_hidden_window mismatched_outputs 1 2 3 2 = true
  /\ valid_attention_window mismatched_outputs 1 1 1 3 = true
  /\ reducer mismatched_outputs 1
     = Ok [[div (f32 1) (f32 2); div (f32 3) (f32 2)]; [f32 1; f32 3]].
Proof.
  repeat split.
Qed.

(** ** The orchestrator *)

Lemma range_step_negative (start stop step : Z) :
  (step < 0)%Z -> (start <= stop)%Z -> range_step start stop step = Ok [].
Proof.
  intros Hs Hle. unfold range_step.
  destruct (Z.eqb_spec step 0) as [E|_]; [lia|].
  destruct (Z.ltb_spec 0 step) as [Hpos|_]; [lia|].
  assert (Hq : ((start - stop - step - 1) / - step < 1)%Z)
    by (apply Z.div_lt_upper_bound; lia).
  replace (Z.to_nat ((start - stop - step - 1) / - step)) with 0 by lia.
  reflexivity.
Qed.


Section OrchestratorProperties.

Context {A : Type} `{Scalar A}.
Variables image pixels : Type.
Variable square_pad : image -> image.
Variable processor : list image -> pixels.
Variable model : pixels -> model_output A.

Local Abbreviation run inputs num_layers batch_size return_format :=
  (to_embeddings square_pad processor model
                 inputs num_layers batch_size return_format).

Local Abbreviation embed inputs num_layers :=
  (create_embeddings model (process_inputs square_pad processor inputs)
                     num_layers).

Lemma np_vstack_ndarray (v w : @py_value A) :
  np_vstack v = Ok w -> exists t, w = NdArray t.
Proof.
  destruct v as [|[|r t]|[|r t]]; simpl; intros E; try discriminate;
    injection E as <-; eauto.
Qed.

(** X5.  With [return_format = "np"] the batched branch calls [.numpy()] on what
    [np.vstack] returned, which is already an array: no call that takes this
    branch returns. *)
Lemma to_embeddings_batched_np (inputs : py_inputs image)
    (num_layers batch_size : Z) :
  let n := match inputs with NotList _ => 1 | PyList xs => length xs end in
  (batch_size <= Z.of_nat n)%Z ->
  is_ok (run inputs num_layers batch_size "np"%string) = false.
Proof.
  intros n Hn. unfold to_embeddings.
  assert (Hlt : (Z.of_nat (length match inputs with
                                  | NotList x => [x]
                                  | PyList xs => xs
                                  end) <? batch_size)%Z = false).
  { apply Z.ltb_ge. destruct inputs; exact Hn. }
  rewrite Hlt.
  destruct (batch _ batch_size) as [batches|]; [|reflexivity]. cbn [bind].
  destruct (for_input_batch _ _ _ _ batches EmptyList) as [v|]; [|reflexivity].
  cbn [bind]. destruct (np_vstack v) as [w|] eqn:Ev; [|reflexivity].
  destruct (np_vstack_ndarray v w Ev) as [t ->]. reflexivity.
Qed.

(** The loop keeps the embeddings of the batch it ran last. *)
Lemma for_input_batch_last (num_layers : Z) (batches : list (list image))
    (last : list image) (v w : py_value) :
  for_input_batch square_pad processor model num_layers (batches ++ [last]) v
  = Ok w ->
  exists e, embed last num_layers = Ok e /\ w = Tensor e.
Proof.
  revert v.
  induction batches as [|b batches IH]; intros v; cbn [app for_input_batch].
  - destruct (embed last num_layers) as [e|]; cbn [bind]; [|discriminate].
    intros E. injection E as <-. eauto.
  - destruct (embed b num_layers) as [e|]; cbn [bind]; [|discriminate].
    apply IH.
Qed.

(** X6.  Whenever the batched branch returns, it returns the embeddings of the
    batch it ran last, whatever the number of batches. *)
Lemma to_embeddings_batched_last (xs : list image)
    (num_layers batch_size : Z) (return_format : string) (v : py_value) :
  (batch_size <= Z.of_nat (length xs))%Z ->
  run (PyList xs) num_layers batch_size return_format = Ok v ->
  exists batches last e,
    batch xs batch_size = Ok (batches ++ [last])
    /\ embed last num_layers = Ok e
    /\ v = Tensor e.
Proof.
  intros Hn. unfold to_embeddings.
  rewrite (proj2 (Z.ltb_ge _ _) Hn).
  destruct (batch xs batch_size) as [bl|]; cbn [bind]; [|discriminate].
  destruct bl as [|b0 bl]; [cbn; discriminate|].
  destruct (@exists_last _ (b0 :: bl)) as [batches [last E]]; [discriminate|].
  rewrite E.
  destruct (for_input_batch _ _ _ _ (batches ++ [last]) EmptyList) as [w|] eqn:Ew;
    cbn [bind]; [|discriminate].
  destruct (for_input_batch_last _ _ _ _ _ Ew) as [e [He ->]].
  destruct e as [|r e]; cbn [np_vstack bind]; [discriminate|].
  destruct (String.eqb return_format "np"); cbn [numpy torch_as_tensor];
    [discriminate|].
  intros Ev. injection Ev as <-. eauto 6.
Qed.

(** C10.  A single input that is not a list is processed as the one-element
    list holding it: the two calls give the same result, and whenever that
    result is a value, it is the array or tensor of the embeddings of the
    batch [[x]]. *)
Theorem to_embeddings_wraps_single_input (x : image)
    (num_layers batch_size : Z) (return_format : string) :
  to_embeddings square_pad processor model (NotList x)
                num_layers batch_size return_format
  = to_embeddings square_pad processor model (PyList [x])
                  num_layers batch_size return_format
  /\ forall v,
       to_embeddings square_pad processor model (NotList x)
                     num_layers batch_size return_format = Ok v ->
       exists e,
         create_embeddings model (process_inputs square_pad processor [x])
                           num_layers = Ok e
         /\ (v = Tensor e \/ v = NdArray e).
Proof.
  split; [reflexivity|].
  intros v. unfold to_embeddings. cbn [length].
  destruct (Z.ltb_spec (Z.of_nat 1) batch_size) as [Hlt|Hge].
  - destruct (embed [x] num_layers) as [e|]; cbn [bind]; [|discriminate].
    destruct (String.eqb return_format "np"); cbn [numpy];
      intros E; injection E as <-; eauto.
  - unfold batch. cbn [length].
    assert (Hcases : batch_size = 1%Z \/ batch_size = 0%Z \/ (batch_size < 0)%Z)
      by lia.
    destruct Hcases as [-> | [-> | Hneg]].
    + change (range_step 0 (Z.of_nat 1) 1) with (Ok [0%Z]).
      cbn [bind map for_input_batch].
      change (slice [x] 0 (Z.min (0 + 1) (Z.of_nat 1))) with [x].
      destruct (embed [x] num_layers) as [e|]; cbn [bind]; [|discriminate].
      destruct e as [|r e]; cbn [np_vstack bind]; [discriminate|].
      destruct (String.eqb return_format "np"); cbn [numpy torch_as_tensor];
        [discriminate | intros E; injection E as <-; eauto].
    + change (range_step 0 (Z.of_nat 1) 0) with (@Raise (list Z) ValueError).
      cbn [bind]. discriminate.
    + rewrite range_step_negative by (simpl; lia).
      cbn [bind map for_input_batch np_vstack]. discriminate.
Qed.

End OrchestratorProperties.

(** ** The orchestrator on the stand-in encoder *)

Lemma to_embeddings_wraps_single_input_witness :
  exists e,
    create_embeddings toy_model
      (process_inputs toy_square_pad toy_processor [5%Z]) 1 = Ok e
    /\ (NdArray [[f32 5; f32 5]] = Tensor e
        \/ NdArray [[f32 5; f32 5]] = NdArray e).
Proof.
  apply (proj2 (to_embeddings_wraps_single_input
                  Z (list float32) toy_square_pad toy_processor toy_model
                  5%Z 1%Z 64%Z "np"%string)).
  reflexivity.
Defined.

(** C2 fails on the code.  Three images in batches of two: the loop rebinds
    [embeddings] at every batch, so what is stacked is the last batch alone
    (one row, the third image); with the default [return_format] the call
    ends in an [AttributeError] instead.  The same three images in one small
    batch come back as three rows. *)
Theorem to_embeddings_keeps_last_batch_only :
  toy_to_embeddings (PyList [1; 2; 3]%Z) 1 2 "pt"
  = Ok (Tensor [[f32 3; f32 3]])
  /\ toy_to_embeddings (PyList [1; 2; 3]%Z) 1 2 "np" = Raise AttributeError
  /\ toy_to_embeddings (PyList [1; 2; 3]%Z) 1 64 "np"
     = Ok (NdArray [[f32 1; f32 1]; [f32 2; f32 2]; [f32 3; f32 3]]).
Proof. repeat split. Qed.

(** C3 fails on the code.  The same three images in one chunk of size three
    and in chunks of size two or one: the first call returns three rows, the
    others the row of the last image only. *)
Theorem to_embeddings_depends_on_chunking :
  toy_to_embeddings (PyList [1; 2; 3]%Z) 1 3 "pt"
  = Ok (Tensor [[f32 1; f32 1]; [f32 2; f32 2]; [f32 3; f32 3]])
  /\ toy_to_embeddings (PyList [1; 2; 3]%Z) 1 2 "pt"
     = Ok (Tensor [[f32 3; f32 3]])
  /\ toy_to_embeddings (PyList [1; 2; 3]%Z) 1 1 "pt"
     = Ok (Tensor [[f32 3; f32 3]])
  /\ toy_to_embeddings (PyList [1; 2; 3]%Z) 1 3 "pt"
     <> toy_to_embeddings (PyList [1; 2; 3]%Z) 1 2 "pt".
Proof.
  repeat split. vm_compute. discriminate.
Qed.

(** ** The heap program computes the reducer and writes to fresh cells only *)

Lemma getitem_related {X Y : Type} (R : X -> Y -> Prop) (xs : list X)
    (ys : list Y) (i : Z) :
  Forall2 R xs ys -> rel_result R (getitem xs i) (getitem ys i).
Proof.
  intros HR. unfold getitem. rewrite <- (Forall2_length HR).
  destruct ((_ <? 0)%Z || _)%bool; [reflexivity|].
  generalize (Z.to_nat (if (i <? 0)%Z then (i + Z.of_nat (length xs))%Z else i)).
  induction HR as [|x y xs ys Hxy HR IH]; intros [|n]; simpl; auto.
Qed.

Lemma mapM_related {I X Y : Type} (R : X -> Y -> Prop) (f : I -> result X)
    (g : I -> result Y) (idx : list I) :
  (forall i, rel_result R (f i) (g i)) ->
  rel_result (Forall2 R) (mapM f idx) (mapM g idx).
Proof.
  intros Hfg. induction idx as [|i idx IH]; simpl; [constructor|].
  specialize (Hfg i).
  destruct (f i) as [x|e], (g i) as [y|e']; simpl in *; try contradiction;
    [|exact Hfg].
  destruct (mapM f idx) as [xs|e], (mapM g idx) as [ys|e']; simpl in *;
    try contradiction; [constructor; assumption | exact IH].
Qed.

Lemma last_layers_related {X Y : Type} (R : X -> Y -> Prop) (xs : list X)
    (ys : list Y) (num_layers : Z) :
  Forall2 R xs ys ->
  rel_result (Forall2 R) (last_layers xs num_layers) (last_layers ys num_layers).
Proof.
  intros HR. unfold last_layers. apply mapM_related.
  intros i. apply getitem_related, HR.
Qed.

Section HeapProperties.

Context {A : Type} `{Scalar A}.

Lemma stored_app (h l : heap A) (r : tensor_ref) (v : value A) :
  stored h r v -> stored (h ++ l) r v.
Proof.
  unfold stored, read. cbn [fst].
  destruct (nth_error h (storage r)) as [c|] eqn:E; [|discriminate].
  rewrite nth_error_app1 by (apply nth_error_Some; congruence).
  rewrite E. auto.
Qed.

Lemma mapMM_read {X : Type} (inj : X -> value A) (h : heap A)
    (rs : list tensor_ref) (ts : list X) :
  Forall2 (fun r t => stored h r (inj t)) rs ts ->
  mapMM read rs h = (Ok (map inj ts), h).
Proof.
  intros HR. induction HR as [|r t rs ts Hrt HR IH]; [reflexivity|].
  cbn [mapMM map]. unfold bindM at 1.
  unfold stored in Hrt. unfold read in *. cbn [fst] in Hrt. rewrite Hrt.
  unfold bindM at 1. rewrite IH. reflexivity.
Qed.

Lemma mapM_as3 (ts : list (tensor3 A)) : mapM as3 (map V3 ts) = Ok ts.
Proof.
  induction ts as [|t ts IH]; simpl; [reflexivity|]. rewrite IH. reflexivity.
Qed.

Lemma mapM_as4 (ts : list (tensor4 A)) : mapM as4 (map V4 ts) = Ok ts.
Proof.
  induction ts as [|t ts IH]; simpl; [reflexivity|]. rewrite IH. reflexivity.
Qed.

Lemma Forall2_stored_app {X : Type} (inj : X -> value A) (h l : heap A)
    (rs : list tensor_ref) (ts : list X) :
  Forall2 (fun r t => stored h r (inj t)) rs ts ->
  Forall2 (fun r t => stored (h ++ l) r (inj t)) rs ts.
Proof.
  intros HR. induction HR; constructor; auto using stored_app.
Qed.

Lemma represents_app (h l : heap A) (refs : model_output_refs)
    (outputs : model_output A) :
  represents h refs outputs -> represents (h ++ l) refs outputs.
Proof.
  intros [Hh Ha]. split; apply Forall2_stored_app; assumption.
Qed.

(** [torch.stack] on tensors held in the heap. *)
Lemma torch_stack3_run (h : heap A) (rs : list tensor_ref)
    (ts : list (tensor3 A)) :
  Forall2 (fun r t => stored h r (V3 t)) rs ts ->
  torch_stack3 rs h
  = match stack shape3 ts with
    | Ok st => (Ok {| storage := length h; views := [] |}, h ++ [V4 st])
    | Raise e => (Raise e, h)
    end.
Proof.
  intros HR. unfold torch_stack3, bindM, lift, alloc.
  rewrite (mapMM_read V3 h rs ts HR), mapM_as3.
  destruct (stack shape3 ts); reflexivity.
Qed.

Lemma torch_stack4_run (h : heap A) (rs : list tensor_ref)
    (ts : list (tensor4 A)) :
  Forall2 (fun r t => stored h r (V4 t)) rs ts ->
  torch_stack4 rs h
  = match stack shape4 ts with
    | Ok st => (Ok {| storage := length h; views := [] |}, h ++ [V5 st])
    | Raise e => (Raise e, h)
    end.
Proof.
  intros HR. unfold torch_stack4, bindM, lift, alloc.
  rewrite (mapMM_read V4 h rs ts HR), mapM_as4.
  destruct (stack shape4 ts); reflexivity.
Qed.

Lemma stored_alloc (g : heap A) (v : value A) :
  stored (g ++ [v]) {| storage := length g; views := [] |} v.
Proof.
  unfold stored, read. cbn [fst storage views fold_left].
  rewrite nth_error_app2, Nat.sub_diag by lia. reflexivity.
Qed.

Lemma stored_view (g : heap A) (r : tensor_ref) (v v' : value A) (vw : view) :
  stored g r v -> apply_view (Ok v) vw = Ok v' ->
  stored g {| storage := storage r; views := views r ++ [vw] |} v'.
Proof.
  unfold stored, read. cbn [fst storage views]. intros Hv Hvw.
  destruct (nth_error g (storage r)) as [c|]; [|discriminate].
  rewrite fold_left_app, Hv. exact Hvw.
Qed.

Lemma update_last (g : heap A) (c c' : value A) :
  update (g ++ [c]) (length g) c' = g ++ [c'].
Proof.
  unfold update. rewrite firstn_app, firstn_all, Nat.sub_diag. cbn [firstn].
  rewrite app_nil_r. f_equal.
  rewrite skipn_all2 by (rewrite length_app; simpl; lia). reflexivity.
Qed.

Lemma read_stored (g : heap A) (r : tensor_ref) (v : value A) :
  stored g r v -> read r g = (Ok v, g).
Proof. unfold stored, read. cbn [fst]. intros ->. reflexivity. Qed.

Lemma torch_sum4_run (g : heap A) (r : tensor_ref) (t : tensor4 A) :
  stored g r (V4 t) ->
  torch_sum4 r g
  = (Ok {| storage := length g; views := [] |}, g ++ [V3 (sum4 t)]).
Proof.
  intros Hr. unfold torch_sum4, bindM. rewrite (read_stored g r _ Hr).
  reflexivity.
Qed.

Lemma torch_mean123_run (g : heap A) (r : tensor_ref) (t : tensor5 A) :
  stored g r (V5 t) ->
  torch_mean123 r g
  = (Ok {| storage := length g; views := [] |},
     g ++ [V2 (attentions_reduced t)]).
Proof.
  intros Hr. unfold torch_mean123, bindM. rewrite (read_stored g r _ Hr).
  reflexivity.
Qed.

Lemma torch_sum_rows_run (g : heap A) (r : tensor_ref) (t : tensor2 A) :
  stored g r (V2 t) ->
  torch_sum_rows r g
  = (Ok {| storage := length g; views := [] |}, g ++ [V1 (map sum1 t)]).
Proof.
  intros Hr. unfold torch_sum_rows, bindM. rewrite (read_stored g r _ Hr).
  reflexivity.
Qed.

Lemma torch_sum_tokens_run (g : heap A) (r : tensor_ref) (t : tensor3 A) :
  stored g r (V3 t) ->
  torch_sum_tokens r g
  = (Ok {| storage := length g; views := [] |}, g ++ [V2 (map sum2 t)]).
Proof.
  intros Hr. unfold torch_sum_tokens, bindM. rewrite (read_stored g r _ Hr).
  reflexivity.
Qed.

Lemma torch_div_run (g : heap A) (a b : tensor_ref) (x y : tensor2 A) :
  stored g a (V2 x) -> stored g b (V2 y) ->
  torch_div a b g
  = match div2 x y with
    | Ok q => (Ok {| storage := length g; views := [] |}, g ++ [V2 q])
    | Raise e => (Raise e, g)
    end.
Proof.
  intros Ha Hb. unfold torch_div, bindM.
  rewrite (read_stored g a _ Ha). cbn [lift as2].
  rewrite (read_stored g b _ Hb). cbn [lift as2].
  destruct (div2 x y); reflexivity.
Qed.

Lemma torch_mul_run (g : heap A) (a b : tensor_ref) (x y : tensor3 A) :
  stored g a (V3 x) -> stored g b (V3 y) ->
  torch_mul a b g
  = match mul3 x y with
    | Ok p => (Ok {| storage := length g; views := [] |}, g ++ [V3 p])
    | Raise e => (Raise e, g)
    end.
Proof.
  intros Ha Hb. unfold torch_mul, bindM.
  rewrite (read_stored g a _ Ha). cbn [lift as3].
  rewrite (read_stored g b _ Hb). cbn [lift as3].
  destruct (mul3 x y); reflexivity.
Qed.

(** The in-place write of line 94 lands in the cell allocated last. *)
Lemma setitem_column0_run (g : heap A) (t : tensor2 A) :
  setitem_column0 {| storage := length g; views := [] |} (g ++ [V2 t])
  = match set_column0 t with
    | Ok t' => (Ok tt, g ++ [V2 t'])
    | Raise e => (Raise e, g ++ [V2 t])
    end.
Proof.
  unfold setitem_column0. cbn [views storage].
  rewrite nth_error_app2, Nat.sub_diag by lia. cbn [nth_error].
  destruct (set_column0 t); [|reflexivity].
  rewrite update_last. reflexivity.
Qed.

Lemma extends_self (h : heap A) : exists fresh, h = h ++ fresh.
Proof. exists []. symmetry. apply app_nil_r. Qed.

Ltac raised :=
  split;
  [ first [ apply extends_self
          | eexists; cbn [snd]; repeat rewrite <- app_assoc; reflexivity ]
  | reflexivity ].

(** One run: the heap it leaves is the heap it found followed by fresh
    cells, and what it returns (or raises) is what [reducer] computes from
    the tensors found at the references. *)
Lemma reducer_heap_run (h : heap A) (refs : model_output_refs)
    (outputs : model_output A) (num_layers : Z) :
  represents h refs outputs ->
  run_refines h (reducer_heap refs num_layers h) (reducer outputs num_layers).
Proof.
  intros [Hh Ha].
  pose proof (last_layers_related _ _ _ num_layers Hh) as Lh.
  pose proof (last_layers_related _ _ _ num_layers Ha) as La.
  unfold reducer_heap, reducer, summed_hidden_states, stacked_attentions.
  unfold bindM at 1. unfold lift at 1.
  destruct (last_layers (hidden_state_refs refs) num_layers) as [rs|e],
           (last_layers (hidden_states outputs) num_layers) as [ts|e'];
    cbn [rel_result] in Lh; try contradiction; [|subst e'; raised].
  cbn [bind]. unfold bindM at 1. rewrite (torch_stack3_run h rs ts Lh).
  destruct (stack shape3 ts) as [st|e]; [|raised].
  cbn [bind]. unfold bindM at 1.
  rewrite (torch_sum4_run _ _ st (stored_alloc h (V4 st))).
  set (g2 := (h ++ [V4 st]) ++ [V3 (sum4 st)]).
  assert (Hs : stored g2 {| storage := length (h ++ [V4 st]); views := [] |}
                      (V3 (sum4 st))) by apply stored_alloc.
  unfold bindM at 1. unfold lift at 1.
  destruct (last_layers (attention_refs refs) num_layers) as [rs'|e],
           (last_layers (attentions outputs) num_layers) as [ts'|e'];
    cbn [rel_result] in La; try contradiction; [|subst e' g2; raised].
  cbn [bind]. unfold bindM at 1.
  rewrite (torch_stack4_run g2 rs' ts')
    by (subst g2; do 2 apply Forall2_stored_app; exact La).
  destruct (stack shape4 ts') as [sa|e]; [|subst g2; raised].
  cbn [bind]. unfold bindM at 1. unfold torch_transpose, add_view, ret.
  cbn [storage views app].
  unfold bindM at 1.
  rewrite (torch_mean123_run (g2 ++ [V5 sa]) _ (transpose sa))
    by (apply (stored_view _ {| storage := length g2; views := [] |} (V5 sa));
        [apply stored_alloc | reflexivity]).
  unfold bindM at 1. rewrite setitem_column0_run.
  unfold attentions_reweighted.
  destruct (set_column0 (attentions_reduced (transpose sa))) as [z|e];
    [|subst g2; raised].
  cbn [bind].
  set (g5 := (g2 ++ [V5 sa]) ++ [V2 z]).
  assert (Hz : stored g5 {| storage := length (g2 ++ [V5 sa]); views := [] |}
                      (V2 z)) by apply stored_alloc.
  assert (Hs5 : stored g5 {| storage := length (h ++ [V4 st]); views := [] |}
                       (V3 (sum4 st)))
    by (subst g5; do 2 apply stored_app; exact Hs).
  unfold bindM at 1. rewrite (torch_sum_rows_run g5 _ z Hz).
  unfold bindM at 1. unfold torch_unsqueeze1, add_view, ret.
  cbn [storage views app].
  unfold bindM at 1.
  rewrite (torch_div_run (g5 ++ [V1 (map sum1 z)]) _ _ z
             (unsqueeze1 (map sum1 z)));
    [ | apply stored_app; exact Hz
      | apply (stored_view _ {| storage := length g5; views := [] |}
                           (V1 (map sum1 z)));
        [apply stored_alloc | reflexivity] ].
  destruct (div2 z (unsqueeze1 (map sum1 z))) as [w|e];
    [|subst g5 g2; raised].
  cbn [bind]. unfold bindM at 1. unfold torch_unsqueeze2, add_view, ret.
  cbn [storage views app].
  set (g6 := g5 ++ [V1 (map sum1 z)]).
  unfold bindM at 1. unfold embeddings.
  rewrite (torch_mul_run (g6 ++ [V2 w]) _ _ (sum4 st) (unsqueeze2 w));
    [ | subst g6; do 2 apply stored_app; exact Hs5
      | apply (stored_view _ {| storage := length g6; views := [] |} (V2 w));
        [apply stored_alloc | reflexivity] ].
  destruct (mul3 (sum4 st) (unsqueeze2 w)) as [p|e];
    [|subst g6 g5 g2; raised].
  cbn [bind].
  rewrite (torch_sum_tokens_run _ _ p (stored_alloc (g6 ++ [V2 w]) (V3 p))).
  split.
  - subst g6 g5 g2. eexists. cbn [snd]. repeat rewrite <- app_assoc.
    reflexivity.
  - unfold fetch. cbn [fst snd].
    rewrite (stored_alloc ((g6 ++ [V2 w]) ++ [V3 p]) (V2 (map sum2 p))).
    reflexivity.
Qed.

(** C9.  A call of the reducer leaves every tensor that existed before it as
    it was (the heap it found is a prefix of the heap it leaves, so the
    encoder's output still reads the same), its result is the function
    [reducer] of the tensors it was given and of [num_layers], and a second
    call on the same references returns the same array. *)
Theorem reducer_is_pure_and_deterministic (h : heap A)
    (refs : model_output_refs) (outputs : model_output A) (num_layers : Z) :
  represents h refs outputs ->
  let run1 := reducer_heap refs num_layers h in
  let run2 := reducer_heap refs num_layers (snd run1) in
  (exists fresh, snd run1 = h ++ fresh)
  /\ represents (snd run1) refs outputs
  /\ fetch run1 = reducer outputs num_layers
  /\ fetch run2 = fetch run1.
Proof.
  intros Hrep run1 run2.
  destruct (reducer_heap_run h refs outputs num_layers Hrep)
    as [[fresh Hfresh] Hfetch].
  fold run1 in Hfresh, Hfetch.
  assert (Hrep1 : represents (snd run1) refs outputs)
    by (rewrite Hfresh; apply represents_app; exact Hrep).
  destruct (reducer_heap_run (snd run1) refs outputs num_layers Hrep1)
    as [_ Hfetch2].
  fold run2 in Hfetch2.
  repeat split.
  - exists fresh. exact Hfresh.
  - apply Hrep1.
  - apply Hrep1.
  - exact Hfetch.
  - congruence.
Qed.

End HeapProperties.

Lemma reducer_is_pure_and_deterministic_witness :
  let run1 := reducer_heap scenario_refs 1 scenario_heap in
  let run2 := reducer_heap scenario_refs 1 (snd run1) in
  (exists fresh, snd run1 = scenario_heap ++ fresh)
  /\ represents (snd run1) scenario_refs scenario_outputs
  /\ fetch run1 = reducer scenario_outputs 1
  /\ fetch run2 = fetch run1.
Proof.
  apply (reducer_is_pure_and_deterministic
           scenario_heap scenario_refs scenario_outputs 1).
  split; repeat constructor.
Defined.

(** In the scenario the cell that [torch.mean] allocated (the sixth of the
    heap, after the two inputs, the stacked and the summed hidden states and
    the stacked attentions) holds, once the call is over, the averaged
    attention with its first column overwritten: the write of line 94
    happened in place, and in that cell. *)
Example line94_writes_in_place :
  let reduced :=
    attentions_reduced (transpose (attentions scenario_outputs)) in
  nth_error (snd (reducer_heap scenario_refs 1 scenario_heap)) 5
  = Some (V2 (map (fun r => zero :: tl r) reduced))
  /\ nth_error (snd (reducer_heap scenario_refs 1 scenario_heap)) 5
     <> Some (V2 reduced).
Proof.
  split; [reflexivity|].
  intros E. apply (f_equal (fun c => match c with
                                     | Some (V2 ((x :: _) :: _)) => this x
                                     | _ => 0%Q
                                     end)) in E.
  vm_compute in E. discriminate E.
Qed.

(** * Further properties of the code *)

(** ** The generator [batch] *)

Lemma firstn_add_skipn {X : Type} (a b : nat) (xs : list X) :
  firstn (a + b) xs = firstn a xs ++ firstn b (skipn a xs).
Proof.
  revert xs. induction a as [|a IH]; intros xs; [reflexivity|].
  destruct xs as [|x xs]; simpl.
  - rewrite firstn_nil. reflexivity.
  - f_equal. apply IH.
Qed.

Lemma concat_chunks {X : Type} (m c : nat) (xs : list X) :
  concat (map (fun i => firstn m (skipn (i * m) xs)) (seq 0 c))
  = firstn (c * m) xs.
Proof.
  induction c as [|c IH]; [reflexivity|].
  rewrite seq_S, map_app, concat_app, IH. cbn [map concat plus].
  rewrite app_nil_r.
  replace (S c * m) with (c * m + m) by lia.
  symmetry. apply firstn_add_skipn.
Qed.

Lemma slice_chunk {X : Type} (xs : list X) (n : Z) (i : nat) :
  (0 < n)%Z -> (Z.of_nat i * n < Z.of_nat (length xs))%Z ->
  slice xs (0 + Z.of_nat i * n)
        (Z.min (0 + Z.of_nat i * n + n) (Z.of_nat (length xs)))
  = firstn (Z.to_nat n) (skipn (i * Z.to_nat n) xs).
Proof.
  intros Hn Hi. unfold slice, slice_bound.
  destruct (Z.ltb_spec (0 + Z.of_nat i * n) 0) as [Hneg|_]; [lia|].
  destruct (Z.ltb_spec (Z.min (0 + Z.of_nat i * n + n) (Z.of_nat (length xs))) 0)
    as [Hneg|_]; [lia|].
  replace (Z.to_nat (Z.min (0 + Z.of_nat i * n) (Z.of_nat (length xs))))
    with (i * Z.to_nat n) by nia.
  set (rest := skipn (i * Z.to_nat n) xs).
  assert (Hrest : length rest = length xs - i * Z.to_nat n)
    by (subst rest; apply length_skipn).
  destruct (Z.le_gt_cases (Z.of_nat i * n + n) (Z.of_nat (length xs)))
    as [Hfull|Hpart].
  - f_equal. nia.
  - replace (Z.to_nat _) with (length rest) by nia.
    rewrite firstn_all. symmetry. apply firstn_all2. nia.
Qed.

(** The generator in closed form: batch [i] is the [n] items from position
    [i * n] on, or what is left of them. *)
Lemma batch_chunks {image : Type} (xs : list image) (n : Z) :
  (0 < n)%Z ->
  batch xs n
  = Ok (map (fun i => firstn (Z.to_nat n) (skipn (i * Z.to_nat n) xs))
            (seq 0 (Z.to_nat ((Z.of_nat (length xs) + n - 1) / n)))).
Proof.
  intros Hn. unfold batch, range_step.
  destruct (Z.eqb_spec n 0) as [E|_]; [lia|].
  destruct (Z.ltb_spec 0 n) as [_|Hle]; [|lia].
  cbn [bind]. f_equal. rewrite map_map.
  replace (Z.of_nat (length xs) - 0 + n - 1)%Z
    with (Z.of_nat (length xs) + n - 1)%Z by lia.
  apply map_ext_in. intros i Hi. apply in_seq in Hi.
  apply slice_chunk; [exact Hn|].
  pose proof (Z.mul_div_le (Z.of_nat (length xs) + n - 1) n Hn) as Hle.
  nia.
Qed.

Lemma batch_count_covers (len n : Z) :
  (0 < n)%Z -> (0 <= len)%Z ->
  (len <= (len + n - 1) / n * n)%Z.
Proof.
  intros Hn Hlen.
  pose proof (Z.mul_succ_div_gt (len + n - 1) n Hn) as Hgt. nia.
Qed.

Lemma batch_count_tight (len n : Z) (i : nat) :
  (0 < n)%Z -> (0 <= len)%Z ->
  i < Z.to_nat ((len + n - 1) / n) -> (Z.of_nat i * n < len)%Z.
Proof.
  intros Hn Hlen Hi.
  pose proof (Z.mul_div_le (len + n - 1) n Hn) as Hle. nia.
Qed.

(** X1.  [batch], lines 51-54.  For a positive batch size the batches, put end to
    end, are the input: nothing is lost, repeated or reordered. *)
Theorem batch_concat {image : Type} (xs : list image) (n : Z) :
  (0 < n)%Z ->
  exists batches, batch xs n = Ok batches /\ concat batches = xs.
Proof.
  intros Hn. eexists. split; [apply batch_chunks; exact Hn|].
  rewrite concat_chunks. apply firstn_all2.
  pose proof (batch_count_covers (Z.of_nat (length xs)) n Hn ltac:(lia)).
  nia.
Qed.

(** X2.  For a positive batch size no batch is empty or longer than the batch
    size, and every batch but the last has exactly that size. *)
Theorem batch_sizes {image : Type} (xs : list image) (n : Z) :
  (0 < n)%Z ->
  exists batches,
    batch xs n = Ok batches
    /\ (forall i, i < length batches ->
          1 <= length (nth i batches []) <= Z.to_nat n)
    /\ (forall i, S i < length batches ->
          length (nth i batches []) = Z.to_nat n).
Proof.
  intros Hn. eexists. split; [apply batch_chunks; exact Hn|].
  set (c := Z.to_nat ((Z.of_nat (length xs) + n - 1) / n)).
  set (f := fun i => firstn (Z.to_nat n) (skipn (i * Z.to_nat n) xs)).
  assert (Hnth : forall i, i < c -> nth i (map f (seq 0 c)) [] = f i).
  { intros i Hi. rewrite (nth_indep _ [] (f 0)) by (rewrite length_map, length_seq; exact Hi).
    rewrite map_nth, seq_nth by exact Hi. reflexivity. }
  rewrite length_map, length_seq.
  split; intros i Hi.
  - rewrite Hnth by exact Hi. unfold f.
    rewrite length_firstn, length_skipn.
    pose proof (batch_count_tight (Z.of_nat (length xs)) n i Hn ltac:(lia) Hi).
    nia.
  - rewrite Hnth by lia. unfold f.
    rewrite length_firstn, length_skipn.
    pose proof (batch_count_tight (Z.of_nat (length xs)) n (S i) Hn ltac:(lia) Hi).
    nia.
Qed.

(** X3.  For a positive batch size the number of batches is the input length
    divided by the batch size, rounded up; an empty input gives no batch. *)
Theorem batch_count {image : Type} (xs : list image) (n : Z) :
  (0 < n)%Z ->
  exists batches,
    batch xs n = Ok batches
    /\ Z.of_nat (length batches) = ((Z.of_nat (length xs) + n - 1) / n)%Z.
Proof.
  intros Hn. eexists. split; [apply batch_chunks; exact Hn|].
  rewrite length_map, length_seq. apply Z2Nat.id.
  apply Z.div_pos; lia.
Qed.

(** A batch size of zero makes the generator raise [ValueError] (the step of
    [range]); a negative one makes it yield nothing at all. *)
Theorem batch_not_positive {image : Type} (xs : list image) (n : Z) :
  (n <= 0)%Z ->
  batch xs n = if (n =? 0)%Z then Raise ValueError else Ok [].
Proof.
  intros Hn. unfold batch.
  destruct (Z.eqb_spec n 0) as [->|Hnz]; [reflexivity|].
  rewrite range_step_negative by lia. reflexivity.
Qed.

(** ** [to_embeddings] *)

Section OrchestratorFurther.

Context {A : Type} `{Scalar A}.
Variables image pixels : Type.
Variable square_pad : image -> image.
Variable processor : list image -> pixels.
Variable model : pixels -> model_output A.

(** X4.  [to_embeddings], lines 35-68.  With a batch size of zero or less every
    call ends in a [ValueError], whatever the inputs: no input is shorter
    than the batch size, so the batched branch runs, and there the step of
    [range] is zero or [np.vstack] gets the empty list. *)
Theorem to_embeddings_batch_size_not_positive (inputs : py_inputs image)
    (num_layers batch_size : Z) (return_format : string) :
  (batch_size <= 0)%Z ->
  to_embeddings square_pad processor model
                inputs num_layers batch_size return_format
  = Raise ValueError.
Proof.
  intros Hn. unfold to_embeddings.
  destruct (Z.ltb_spec (Z.of_nat (length match inputs with
                                         | NotList x => [x]
                                         | PyList xs => xs
                                         end)) batch_size) as [Hlt|_]; [lia|].
  rewrite batch_not_positive by exact Hn.
  destruct (Z.eqb_spec batch_size 0); reflexivity.
Qed.

(** X7.  What [to_embeddings] returns is a numpy array exactly when
    [return_format] is ["np"], and a torch tensor otherwise. *)
Theorem to_embeddings_return_format (inputs : py_inputs image)
    (num_layers batch_size : Z) (return_format : string) (v : py_value) :
  to_embeddings square_pad processor model
                inputs num_layers batch_size return_format = Ok v ->
  exists t, v = if String.eqb return_format "np" then NdArray t else Tensor t.
Proof.
  unfold to_embeddings.
  destruct (Z.of_nat _ <? batch_size)%Z.
  - destruct (create_embeddings model _ num_layers) as [e|]; cbn [bind];
      [|discriminate].
    destruct (String.eqb return_format "np"); cbn [numpy];
      intros E; injection E as <-; eauto.
  - destruct (batch _ batch_size) as [bl|]; cbn [bind]; [|discriminate].
    destruct (for_input_batch _ _ _ _ bl EmptyList) as [w|]; cbn [bind];
      [|discriminate].
    destruct (np_vstack w) as [u|] eqn:Eu; cbn [bind]; [|discriminate].
    destruct (np_vstack_ndarray w u Eu) as [t ->].
    destruct (String.eqb return_format "np"); cbn [numpy torch_as_tensor];
      [discriminate|].
    intros E. injection E as <-. eauto.
Qed.

(** X8.  A list shorter than the batch size goes through the encoder in one
    piece: when the encoder's output for it is well shaped, with one batch
    item per image, the call returns one row of [D] features per image. *)
Theorem to_embeddings_small_batch (xs : list image) (k h T D : nat)
    (batch_size : Z) (return_format : string) :
  (Z.of_nat (length xs) < batch_size)%Z ->
  valid_hidden_window (model (process_inputs square_pad processor xs))
                      k (length xs) T D = true ->
  valid_attention_window (model (process_inputs square_pad processor xs))
                         k (length xs) h T = true ->
  exists e,
    has_shape2 (length xs) D e = true
    /\ create_embeddings model (process_inputs square_pad processor xs)
                         (Z.of_nat k) = Ok e
    /\ to_embeddings square_pad processor model
                     (PyList xs) (Z.of_nat k) batch_size return_format
       = Ok (if String.eqb return_format "np" then NdArray e else Tensor e).
Proof.
  intros Hlt Hh Ha.
  destruct (reducer_stages _ k (length xs) h T D Hh Ha)
    as (s & atts & _ & _ & _ & _ & _ & _ & _ & Ee & He).
  eexists. split; [exact He|]. split; [exact Ee|].
  unfold to_embeddings. rewrite (proj2 (Z.ltb_lt _ _) Hlt).
  unfold create_embeddings in *. rewrite Ee. cbn [bind].
  destruct (String.eqb return_format "np"); reflexivity.
Qed.

Lemma for_input_batch_raise (num_layers : Z) (oks : list (list image))
    (bad : list image) (rest : list (list image)) (e : error) (v : py_value) :
  forallb (fun b => is_ok (create_embeddings model
                             (process_inputs square_pad processor b)
                             num_layers)) oks = true ->
  create_embeddings model (process_inputs square_pad processor bad) num_layers
  = Raise e ->
  for_input_batch square_pad processor model num_layers
                  (oks ++ bad :: rest) v
  = Raise e.
Proof.
  intros Hoks Hbad. revert v.
  induction oks as [|b oks IH]; intros v; cbn [app for_input_batch].
  - rewrite Hbad. reflexivity.
  - cbn [forallb] in Hoks. apply andb_true_iff in Hoks.
    destruct Hoks as [Hb Hoks].
    destruct (create_embeddings model _ num_layers) as [t|]; [|discriminate].
    cbn [bind]. apply IH, Hoks.
Qed.

(** X9.  The batched branch stops at the first batch whose embedding fails: the
    exception of that batch is the exception of the call, and the batches
    after it are not run. *)
Theorem to_embeddings_first_failure (xs : list image)
    (num_layers batch_size : Z) (return_format : string)
    (oks : list (list image)) (bad : list image) (rest : list (list image))
    (e : error) :
  (batch_size <= Z.of_nat (length xs))%Z ->
  batch xs batch_size = Ok (oks ++ bad :: rest) ->
  forallb (fun b => is_ok (create_embeddings model
                             (process_inputs square_pad processor b)
                             num_layers)) oks = true ->
  create_embeddings model (process_inputs square_pad processor bad) num_layers
  = Raise e ->
  to_embeddings square_pad processor model
                (PyList xs) num_layers batch_size return_format
  = Raise e.
Proof.
  intros Hn Hbatch Hoks Hbad. unfold to_embeddings.
  rewrite (proj2 (Z.ltb_ge _ _) Hn), Hbatch. cbn [bind].
  rewrite (for_input_batch_raise num_layers oks bad rest e) by assumption.
  reflexivity.
Qed.

End OrchestratorFurther.

(** ** The reducer *)

Lemma zip_with_seq {X Y Z : Type} (f : X -> Y -> Z) (xs : list X) (ys : list Y)
    (dx : X) (dy : Y) (n : nat) :
  length xs = n -> length ys = n ->
  zip_with f xs ys = map (fun i => f (nth i xs dx) (nth i ys dy)) (seq 0 n).
Proof.
  revert ys n. induction xs as [|x xs IH]; intros [|y ys] [|n] Hx Hy;
    simpl in *; try discriminate; [reflexivity|].
  f_equal. rewrite <- seq_shift, map_map. apply IH; congruence.
Qed.

Lemma singleton_nth {X : Type} (l : list X) (d : X) :
  length l = 1 -> l = [nth 0 l d].
Proof. destruct l as [|x [|y l]]; simpl; intros E; congruence || discriminate. Qed.

Lemma window_map {X Y : Type} (f : X -> Y) (xs : list X) (k : nat) :
  window (map f xs) k = map f (window xs k).
Proof. unfold window. rewrite length_map. apply skipn_map. Qed.

Section ReducerFurther.

Context {A : Type} `{Scalar A}.

(** X10.  [create_embeddings], lines 82-84.  With [num_layers] zero or negative no
    layer is selected and [torch.stack] of the empty list raises
    [RuntimeError], whatever the encoder returned. *)
Theorem reducer_no_layer (outputs : model_output A) (num_layers : Z) :
  (num_layers <= 0)%Z -> reducer outputs num_layers = Raise RuntimeError.
Proof.
  intros Hk. unfold reducer, summed_hidden_states.
  rewrite last_layers_none by exact Hk. reflexivity.
Qed.

(** X11.  With more layers asked for than [outputs.hidden_states] has, indexing
    the tuple raises [IndexError]. *)
Theorem reducer_too_many_layers (outputs : model_output A) (k : nat) :
  length (hidden_states outputs) < k ->
  reducer outputs (Z.of_nat k) = Raise IndexError.
Proof.
  intros Hk. unfold reducer, summed_hidden_states.
  rewrite last_layers_too_many by exact Hk. reflexivity.
Qed.

(** X12.  The hidden states may cover [num_layers] layers when the attentions do
    not (the encoder returns one hidden state more than it has layers): the
    hidden states are summed, then indexing [outputs.attentions] raises
    [IndexError]. *)
Theorem reducer_too_few_attentions (outputs : model_output A)
    (k B T D : nat) :
  valid_hidden_window outputs k B T D = true ->
  length (attentions outputs) < k ->
  reducer outputs (Z.of_nat k) = Raise IndexError.
Proof.
  intros Hh Hk. unfold reducer.
  rewrite (summed_hidden_states_window outputs k B T D Hh). cbn [bind].
  unfold stacked_attentions. rewrite last_layers_too_many by exact Hk.
  reflexivity.
Qed.

(** X13.  On valid windows the reducer returns, and what it returns has one row
    per image and as many columns as the hidden states have features,
    whatever [k], [H] and [T] are. *)
Theorem reducer_output_shape (outputs : model_output A) (k B h T D : nat) :
  valid_hidden_window outputs k B T D = true ->
  valid_attention_window outputs k B h T = true ->
  exists e, reducer outputs (Z.of_nat k) = Ok e /\ has_shape2 B D e = true.
Proof.
  intros Hh Ha.
  destruct (reducer_stages outputs k B h T D Hh Ha)
    as (s & atts & _ & _ & _ & _ & _ & _ & _ & Ee & He).
  eauto.
Qed.

Lemma scaled_rows_shape (T D : nat) (img : tensor2 A) (w : tensor1 A) :
  has_shape2 T D img = true ->
  forallb (has_shape1 D) (zip_with scale img w) = true.
Proof.
  intros Hi. apply has_shape2_inv in Hi. destruct Hi as [_ Hi]. revert w.
  induction img as [|v img IH]; intros [|x w]; cbn [zip_with forallb]; auto.
  cbn [forallb] in Hi. apply andb_true_iff in Hi. destruct Hi as [Hv Hi].
  rewrite IH by assumption. rewrite andb_true_r.
  unfold has_shape1 in *. rewrite scale_length. exact Hv.
Qed.

Lemma weighted_sum_get (T D d : nat) (img : tensor2 A) (w : tensor1 A) :
  1 <= T -> d < D ->
  has_shape2 T D img = true -> has_shape1 T w = true ->
  get1 (weighted_sum img w) d
  = sum1 (map (fun t => mul (get2 img t d) (get1 w t)) (seq 0 T)).
Proof.
  intros HT Hd Hi Hw. unfold weighted_sum.
  pose proof (scaled_rows_shape T D img w Hi) as Hrows.
  pose proof Hi as Hi'. apply has_shape2_inv in Hi'. destruct Hi' as [Li Fi].
  pose proof (has_shape1_length T w Hw) as Lw.
  rewrite (sum2_get D) by
    (try assumption; intros E; apply (f_equal (@length _)) in E;
     rewrite zip_with_length in E; simpl in E; lia).
  f_equal. rewrite (zip_with_seq scale img w [] zero T Li Lw), map_map.
  apply map_ext_seq. intros t Ht. unfold scale, get2.
  rewrite (get1_map (fun a => mul a (nth t w zero))); [reflexivity|].
  rewrite (has_shape1_length D) by (apply forallb_nth; [exact Fi | lia]).
  exact Hd.
Qed.

(** X14.  Lines 99-100.  On valid windows, entry (b, d) of the embedding is the sum
    over the token positions [t] of the summed hidden state (b, t, d) times
    the weight (b, t). *)
Theorem reducer_token_weighted_sum
    (outputs : model_output A) (k B h T D : nat) :
  valid_hidden_window outputs k B T D = true ->
  valid_attention_window outputs k B h T = true ->
  exists (s : tensor3 A) (atts : tensor5 A) (w e : tensor2 A),
    summed_hidden_states outputs (Z.of_nat k) = Ok s
    /\ stacked_attentions outputs (Z.of_nat k) = Ok atts
    /\ attentions_reweighted (attentions_reduced atts) = Ok w
    /\ reducer outputs (Z.of_nat k) = Ok e
    /\ forall b d, b < B -> d < D ->
         get2 e b d
         = sum1 (map (fun t => mul (get3 s b t d) (get2 w b t)) (seq 0 T)).
Proof.
  intros Hh Ha.
  destruct (reducer_stages outputs k B h T D Hh Ha)
    as (s & atts & Es & Hs & Ea & _ & Hr & Ew & Hw & Ee & He).
  exists s, atts, (map normalized_row (attentions_reduced atts)),
         (zip_with weighted_sum s (map normalized_row (attentions_reduced atts))).
  repeat split; try assumption.
  intros b d Hb Hd. unfold get2 at 1.
  rewrite (nth_zip_with_weighted_sum B T D) by assumption.
  apply valid_hidden_window_inv in Hh. destruct Hh as (_ & _ & _ & HT & _ & _).
  pose proof Hs as Hs'. pose proof Hw as Hw'.
  apply has_shape3_inv in Hs'. apply has_shape2_inv in Hw'.
  destruct Hs' as [Ls Fs], Hw' as [Lw Fw].
  apply (weighted_sum_get T D); try lia.
  - apply forallb_nth; [exact Fs | lia].
  - apply forallb_nth; [exact Fw | lia].
Qed.

End ReducerFurther.

(** ** One image at a time *)

Section PerImage.

Context {A : Type} `{Scalar A}.

Local Abbreviation sel b := (fun layer : list _ => [nth b layer []]).

Lemma select_fold_add3 (b : nat) (W : list (tensor3 A)) (acc : tensor3 A) :
  (forall x, In x W -> b < length x) -> b < length acc ->
  [nth b (fold_left add3 W acc) []]
  = fold_left add3 (map (sel b) W) [nth b acc []].
Proof.
  revert acc. induction W as [|x W IH]; intros acc HW Hacc; [reflexivity|].
  cbn [map fold_left].
  assert (Hx : b < length x) by (apply HW; left; reflexivity).
  rewrite IH.
  - f_equal. unfold add3. cbn [zip_with]. f_equal.
    apply (zip_with_nth add2 acc x [] [] []); assumption.
  - intros y Hy. apply HW. right. exact Hy.
  - unfold add3. rewrite zip_with_length. lia.
Qed.

Lemma sum4_select (B T D b : nat) (W : list (tensor3 A)) :
  W <> [] -> forallb (has_shape3 B T D) W = true -> b < B ->
  sum4 (map (sel b) W) = [nth b (sum4 W) []].
Proof.
  intros Hne HW Hb. unfold sum4.
  assert (Hlen : forall x, In x W -> b < length x).
  { intros x Hx. rewrite forallb_forall in HW.
    apply HW, has_shape3_inv in Hx. lia. }
  destruct W as [|x W]; [contradiction|].
  rewrite select_fold_add3.
  - cbn [map hd]. f_equal. unfold zeros3. cbn [map]. f_equal.
    symmetry. exact (map_nth zeros2 x [] b).
  - exact Hlen.
  - cbn [hd]. unfold zeros3. rewrite length_map. apply Hlen. left; reflexivity.
Qed.

Lemma transpose_select (b : nat) (W : list (tensor4 A)) :
  W <> [] ->
  transpose (map (sel b) W) = [map (fun layer => nth b layer []) W].
Proof.
  intros Hne.
  assert (Hne' : map (sel b) W <> []) by (destruct W; [contradiction | discriminate]).
  assert (Hlen : forall r, In r (map (sel b) W) -> length r = 1).
  { intros r Hr. apply in_map_iff in Hr. destruct Hr as [x [<- _]]. reflexivity. }
  rewrite (singleton_nth (transpose (map (sel b) W)) [])
    by (apply transpose_length; assumption).
  rewrite (transpose_nth _ 1 0 []) by (assumption || lia).
  rewrite map_map. reflexivity.
Qed.

Lemma select_image_valid_hidden (outputs : model_output A) (k B T D b : nat) :
  valid_hidden_window outputs k B T D = true -> b < B ->
  valid_hidden_window (select_image b outputs) k 1 T D = true.
Proof.
  intros Hv Hb. apply valid_hidden_window_inv in Hv.
  destruct Hv as (Hk & Hlen & HB & HT & HD & Hsh).
  unfold valid_hidden_window, select_image. cbn [hidden_states].
  rewrite length_map, window_map.
  rewrite (proj2 (Nat.leb_le _ _) Hk), (proj2 (Nat.leb_le _ _) Hlen),
          (proj2 (Nat.leb_le _ _) HT), (proj2 (Nat.leb_le _ _) HD).
  cbn [Nat.leb andb].
  rewrite forallb_forall in *. intros x Hx. apply in_map_iff in Hx.
  destruct Hx as [layer [<- Hl]]. apply Hsh, has_shape3_inv in Hl.
  destruct Hl as [Ll Fl].
  unfold has_shape3. cbn [length Nat.eqb forallb]. rewrite andb_true_r.
  apply forallb_nth; [exact Fl | lia].
Qed.

Lemma select_image_valid_attention (outputs : model_output A)
    (k B h T b : nat) :
  valid_attention_window outputs k B h T = true -> b < B ->
  valid_attention_window (select_image b outputs) k 1 h T = true.
Proof.
  intros Hv Hb. apply valid_attention_window_inv in Hv.
  destruct Hv as (Hk & Hlen & HB & HH & HT & Hsh).
  unfold valid_attention_window, select_image. cbn [attentions].
  rewrite length_map, window_map.
  rewrite (proj2 (Nat.leb_le _ _) Hk), (proj2 (Nat.leb_le _ _) Hlen),
          (proj2 (Nat.leb_le _ _) HT), (proj2 (Nat.leb_le _ _) HH).
  cbn [Nat.leb andb].
  rewrite forallb_forall in *. intros x Hx. apply in_map_iff in Hx.
  destruct Hx as [layer [<- Hl]]. apply Hsh, has_shape4_inv in Hl.
  destruct Hl as [Ll Fl].
  unfold has_shape4. cbn [length Nat.eqb forallb]. rewrite andb_true_r.
  apply forallb_nth; [exact Fl | lia].
Qed.

(** X15.  Lines 82-100.  The embedding of an image does not depend on the images it
    shares a batch with: on valid windows, running the reducer on the
    encoder's output for image [b] alone gives row [b] of the result for the
    whole batch. *)
Theorem reducer_per_image (outputs : model_output A) (k B h T D b : nat) :
  valid_hidden_window outputs k B T D = true ->
  valid_attention_window outputs k B h T = true ->
  b < B ->
  exists e,
    reducer outputs (Z.of_nat k) = Ok e
    /\ reducer (select_image b outputs) (Z.of_nat k) = Ok [nth b e []].
Proof.
  intros Hh Ha Hb.
  pose proof (reducer_closed_form outputs k B h T D Hh Ha) as Eall.
  pose proof (reducer_closed_form (select_image b outputs) k 1 h T D
                (select_image_valid_hidden outputs k B T D b Hh Hb)
                (select_image_valid_attention outputs k B h T b Ha Hb)) as Eone.
  destruct (reducer_stages outputs k B h T D Hh Ha)
    as (s & atts & Es & Hs & Ea & -> & Hr & Ew & Hw & Ee & He).
  rewrite (summed_hidden_states_window outputs k B T D Hh) in Es.
  injection Es as <-.
  eexists. split; [exact Eall|]. rewrite Eone. f_equal.
  apply valid_hidden_window_inv in Hh. apply valid_attention_window_inv in Ha.
  destruct Hh as (Hk & Hlen & HB & HT & HD & Hsh).
  destruct Ha as (_ & Hlen' & _ & HH & _ & Hsa).
  unfold select_image. cbn [hidden_states attentions].
  rewrite !window_map.
  rewrite (sum4_select B T D) by (try assumption; apply window_nonempty; assumption).
  rewrite transpose_select by (apply window_nonempty; assumption).
  unfold attentions_reduced at 1. cbn [map zip_with].
  rewrite (nth_zip_with_weighted_sum B T D) by assumption.
  rewrite nth_map_normalized_row
    by (apply has_shape2_inv in Hr; destruct Hr as [-> _]; exact Hb).
  rewrite (attentions_reduced_row k B h T)
    by (try assumption; apply window_length; assumption).
  reflexivity.
Qed.

End PerImage.

(** ** Exact arithmetic: the weights are a convex combination *)

Section ConvexWeights.

#[local] Open Scope Qc_scope.

Lemma nonnegb_le (x : Qc) : nonnegb x = true -> 0 <= x.
Proof. unfold nonnegb, Qcle. intros E. apply Qle_bool_iff in E. exact E. Qed.

Lemma Qc_fold_bounds (z : tensor1 Qc) (acc : Qc) :
  0 <= acc -> (forall x, In x z -> 0 <= x) ->
  acc <= fold_left Qcplus z acc
  /\ forall x, In x z -> x <= fold_left Qcplus z acc.
Proof.
  revert acc. induction z as [|y z IH]; intros acc Hacc Hz.
  - split; [apply Qcle_refl | intros x []].
  - cbn [fold_left].
    assert (Hy : 0 <= y) by (apply Hz; left; reflexivity).
    assert (Hacc' : 0 <= acc + y).
    { replace 0 with (0 + 0) by ring. apply Qcplus_le_compat; assumption. }
    destruct (IH (acc + y) Hacc' (fun x Hx => Hz x (or_intror Hx)))
      as [Hle Hall].
    assert (Hstep : acc <= acc + y).
    { replace acc with (acc + 0) at 1 by ring.
      apply Qcplus_le_compat; [apply Qcle_refl | exact Hy]. }
    assert (Hstep' : y <= acc + y).
    { replace y with (0 + y) at 1 by ring.
      apply Qcplus_le_compat; [exact Hacc | apply Qcle_refl]. }
    split; [eapply Qcle_trans; eassumption|].
    intros x [<-|Hx]; [eapply Qcle_trans; eassumption | apply Hall, Hx].
Qed.


End ConvexWeights.

Section ScaleInvariance.

#[local] Open Scope Qc_scope.

Lemma of_nat_nonzero (n : nat) : (1 <= n)%nat -> (of_nat n : Qc) <> 0.
Proof.
  intros Hn E. cbn [of_nat Scalar_Qc] in E.
  apply Q2Qc_eq_iff in E. unfold Qeq in E. simpl in E. lia.
Qed.

Lemma Qc_div_div (x s c : Qc) :
  c <> 0 -> s <> 0 -> (x / c) / (s / c) = x / s.
Proof. intros Hc Hs. field. split; assumption. Qed.

(** Dividing a whole importance row by a non-zero constant changes none of
    its normalized weights. *)
Lemma normalized_row_scale (r : tensor1 Qc) (c : Qc) :
  c <> 0 -> sum1 (zero :: tl r) <> zero ->
  normalized_row (map (fun x => div x c) r) = normalized_row r.
Proof.
  intros Hc Hs. unfold normalized_row. cbv zeta.
  assert (Hz : zero :: tl (map (fun x => div x c) r)
               = map (fun x => div x c) (zero :: tl r)).
  { cbn [map]. f_equal.
    - cbn [zero div Scalar_Qc]. unfold Qcdiv. ring.
    - destruct r; reflexivity. }
  rewrite Hz, sum1_div, map_map.
  apply map_ext. intros x. cbn [div Scalar_Qc].
  apply Qc_div_div; assumption.
Qed.


End ScaleInvariance.

(** ** The further properties at concrete inputs *)

Lemma batch_concat_witness :
  exists batches, batch [1; 2; 3]%Z 2 = Ok batches /\ concat batches = [1; 2; 3]%Z.
Proof. apply (batch_concat [1; 2; 3]%Z 2). lia. Defined.

Lemma batch_sizes_witness :
  exists batches,
    batch [1; 2; 3]%Z 2 = Ok batches
    /\ (forall i, i < length batches ->
          1 <= length (nth i batches []) <= Z.to_nat 2)
    /\ (forall i, S i < length batches ->
          length (nth i batches []) = Z.to_nat 2).
Proof. apply (batch_sizes [1; 2; 3]%Z 2). lia. Defined.

Lemma batch_count_witness :
  exists batches,
    batch [1; 2; 3]%Z 2 = Ok batches
    /\ Z.of_nat (length batches) = ((Z.of_nat 3 + 2 - 1) / 2)%Z.
Proof. apply (batch_count [1; 2; 3]%Z 2). lia. Defined.

Lemma to_embeddings_batch_size_not_positive_witness :
  toy_to_embeddings (PyList [1; 2; 3]%Z) 1 0 "np" = Raise ValueError.
Proof.
  apply (to_embeddings_batch_size_not_positive
           Z (list float32) toy_square_pad toy_processor toy_model).
  lia.
Defined.

Lemma to_embeddings_batched_np_witness :
  is_ok (toy_to_embeddings (PyList [1; 2; 3]%Z) 1 2 "np") = false.
Proof.
  apply (to_embeddings_batched_np
           Z (list float32) toy_square_pad toy_processor toy_model
           (PyList [1; 2; 3]%Z) 1 2).
  simpl. lia.
Defined.

Lemma to_embeddings_batched_last_witness :
  exists batches last e,
    batch [1; 2; 3]%Z 2 = Ok (batches ++ [last])
    /\ create_embeddings toy_model
         (process_inputs toy_square_pad toy_processor last) 1 = Ok e
    /\ Tensor [[f32 3; f32 3]] = Tensor e.
Proof.
  apply (to_embeddings_batched_last
           Z (list float32) toy_square_pad toy_processor toy_model
           [1; 2; 3]%Z 1 2 "pt").
  - simpl. lia.
  - reflexivity.
Defined.

Lemma to_embeddings_return_format_witness :
  exists t,
    NdArray [[f32 1; f32 1]; [f32 2; f32 2]; [f32 3; f32 3]]
    = if String.eqb "np" "np" then NdArray t else Tensor t.
Proof.
  apply (to_embeddings_return_format
           Z (list float32) toy_square_pad toy_processor toy_model
           (PyList [1; 2; 3]%Z) 1 64 "np").
  reflexivity.
Defined.

Lemma to_embeddings_small_batch_witness :
  exists e,
    has_shape2 3 2 e = true
    /\ create_embeddings toy_model
         (process_inputs toy_square_pad toy_processor [1; 2; 3]%Z)
         (Z.of_nat 1) = Ok e
    /\ to_embeddings toy_square_pad toy_processor toy_model
                     (PyList [1; 2; 3]%Z) (Z.of_nat 1) 64 "np"
       = Ok (if String.eqb "np" "np" then NdArray e else Tensor e).
Proof.
  apply (to_embeddings_small_batch
           Z (list float32) toy_square_pad toy_processor toy_model
           [1; 2; 3]%Z 1 1 3 2 64 "np").
  - simpl. lia.
  - reflexivity.
  - reflexivity.
Defined.

Lemma to_embeddings_first_failure_witness :
  to_embeddings toy_square_pad toy_processor picky_model
                (PyList [1; 2; 0; 4; 5]%Z) 1 2 "pt"
  = Raise IndexError.
Proof.
  apply (to_embeddings_first_failure
           Z (list float32) toy_square_pad toy_processor picky_model
           [1; 2; 0; 4; 5]%Z 1 2 "pt" [[1; 2]%Z] [0; 4]%Z [[5%Z]] IndexError).
  - simpl. lia.
  - reflexivity.
  - reflexivity.
  - reflexivity.
Defined.

Lemma reducer_no_layer_witness :
  reducer scenario_outputs 0 = Raise RuntimeError.
Proof. apply (reducer_no_layer scenario_outputs 0). lia. Defined.

Lemma reducer_too_many_layers_witness :
  reducer scenario_outputs (Z.of_nat 2) = Raise IndexError.
Proof. apply (reducer_too_many_layers scenario_outputs 2). simpl. lia. Defined.

Lemma reducer_too_few_attentions_witness :
  reducer scenario_two_hidden (Z.of_nat 2) = Raise IndexError.
Proof.
  apply (reducer_too_few_attentions scenario_two_hidden 2 2 3 4).
  - reflexivity.
  - simpl. lia.
Defined.

Lemma reducer_output_shape_witness :
  exists e, reducer scenario_outputs (Z.of_nat 1) = Ok e
            /\ has_shape2 2 4 e = true.
Proof.
  apply (reducer_output_shape scenario_outputs 1 2 1 3 4); reflexivity.
Defined.

Lemma reducer_token_weighted_sum_witness :
  exists (s : tensor3 Qc) (atts : tensor5 Qc) (w e : tensor2 Qc),
    summed_hidden_states scenario_outputs (Z.of_nat 1) = Ok s
    /\ stacked_attentions scenario_outputs (Z.of_nat 1) = Ok atts
    /\ attentions_reweighted (attentions_reduced atts) = Ok w
    /\ reducer scenario_outputs (Z.of_nat 1) = Ok e
    /\ forall b d, b < 2 -> d < 4 ->
         get2 e b d
         = sum1 (map (fun t => mul (get3 s b t d) (get2 w b t)) (seq 0 3)).
Proof.
  apply (reducer_token_weighted_sum scenario_outputs 1 2 1 3 4); reflexivity.
Defined.

Lemma reducer_per_image_witness :
  exists e,
    reducer scenario_outputs (Z.of_nat 1) = Ok e
    /\ reducer (select_image 1 scenario_outputs) (Z.of_nat 1)
       = Ok [nth 1 e []].
Proof.
  apply (reducer_per_image scenario_outputs 1 2 1 3 4 1);
    (reflexivity || lia).
Defined.


